(** * pdftochat: the chat route handler ([POST]) and its history normalizer

    A shallow embedding of the route handler of
    [src/app/document/[id]/page.tsx] (lines 242-423): the function
    [formatVercelMessages] and the handler [POST].

    The handler is asynchronous JavaScript that talks to collaborators
    that live outside the repository (session authentication, the request
    body parser, the language model, the vector index, [JSON.stringify],
    [Buffer]).  It is embedded as a program in a small monad [M] that
      - threads a state made of the trace of collaborator calls issued so
        far and of the one promise the handler creates ([documentPromise]);
      - ends in one of three outcomes: a value, a thrown exception, or a
        suspension on a promise that is never settled.
    The collaborators are the fields of a record [World]; every theorem
    quantifies over all worlds. *)

From Stdlib Require Import String Ascii List ZArith Lia Bool Arith.
From Stdlib Require Import DecimalString.
Import ListNotations.
Open Scope string_scope.

(* ===================================================================== *)
(** ** JavaScript built-ins used by the handler *)
(* ===================================================================== *)

Module Js.

(** Relative index of [Array.prototype.slice] and
    [String.prototype.slice]: a negative index counts from the end and
    is clamped at 0, a non-negative one is clamped at the length. *)
Definition rel_index (len i : Z) : Z :=
  if (i <? 0)%Z then Z.max (len + i) 0 else Z.min i len.

(** [l.slice(start, end)]. *)
Definition slice {A : Type} (start end_ : Z) (l : list A) : list A :=
  let len := Z.of_nat (length l) in
  let from := rel_index len start in
  let to := rel_index len end_ in
  firstn (Z.to_nat (to - from)) (skipn (Z.to_nat from) l).

(** [s.slice(start, end)] on a string; a character of the Rocq string
    stands for one code unit of the JavaScript string. *)
Definition str_slice (start end_ : Z) (s : string) : string :=
  string_of_list_ascii (slice start end_ (list_ascii_of_string s)).

(** [a ?? b]: [None] stands for [undefined] and [null]. *)
Definition nullish {A : Type} (a : option A) (b : A) : A :=
  match a with Some x => x | None => b end.

(** [!s] for a value that is a string, [null] or [undefined]. *)
Definition falsy (s : option string) : bool :=
  match s with
  | None => true
  | Some EmptyString => true
  | Some _ => false
  end.

(** [n.toString()] for a non-negative integer. *)
Definition toString (n : nat) : string :=
  NilEmpty.string_of_uint (Nat.to_uint n).

(** The double-quote character, for template literals that contain it. *)
Definition dquote : string := String (ascii_of_nat 34) EmptyString.

(** [!s] for a string. *)
Definition empty (s : string) : bool :=
  match s with
  | EmptyString => true
  | String _ _ => false
  end.

(** White space and line terminators of [String.prototype.trim], among
    the code units below 256: TAB, LF, VT, FF, CR, SP and NBSP. *)
Definition is_whitespace (c : ascii) : bool :=
  let n := nat_of_ascii c in
  ((9 <=? n)%nat && (n <=? 13)%nat) || (n =? 32)%nat || (n =? 160)%nat.

Fixpoint trimStart_list (l : list ascii) : list ascii :=
  match l with
  | [] => []
  | c :: rest => if is_whitespace c then trimStart_list rest else l
  end.

(** [s.trim()]. *)
Definition trim (s : string) : string :=
  string_of_list_ascii
    (rev (trimStart_list (rev (trimStart_list (list_ascii_of_string s))))).

End Js.

(* ===================================================================== *)
(** ** Data model *)
(* ===================================================================== *)

(** [VercelChatMessage]: the raw turn of the request body.  The role is
    kept as the string the caller sent. *)
Record VercelChatMessage := mkMessage {
  role : string;
  content : string
}.

(** The LangChain message classes the normalizer constructs. *)
Inductive BaseMessage :=
| HumanMessage (c : string)
| AIMessage (c : string)
| ChatMessage (c : string) (r : string).

(** Scalars of a chunk's metadata. *)
Inductive Scalar :=
| SNull
| SBool (b : bool)
| SNum (n : Z)
| SStr (s : string).

Definition Metadata := list (string * Scalar).

(** LangChain's [Document]: a retrieved chunk.  [pageContent] is a
    string, as the type of the class declares it; a chunk for which the
    library leaves it undefined (some versions do for an empty text) is
    outside this model. *)
Record Document := mkDocument {
  pageContent : string;
  metadata : Metadata
}.

(** The object literal built at lines 406-409: one entry of the source
    manifest.  Its fields keep the names of the source. *)
Record SourceEntry := mkSource {
  src_pageContent : string;
  src_metadata : Metadata
}.

(** The parsed request body: [messages] and [chatId] may be absent. *)
Record RequestBody := mkBody {
  body_messages : option (list VercelChatMessage);
  body_chatId : option string
}.

(** A JavaScript [Error]; the handler reads its [message] only. *)
Record JsError := Error { message : string }.

(** The answer stream handed to the transport: the fragments that the
    model will produce, and how the stream ends. *)
Inductive StreamEnd :=
| EndOfStream
| StreamError (e : JsError).

Record IterableReadableStream := mkStream {
  fragments : list string;
  stream_end : StreamEnd
}.

(** Responses.  [NoBody] is the [null] body of [new Response(null, ...)];
    [headers] lists the headers the handler sets itself. *)
Inductive ResponseBody :=
| NoBody
| TextBody (text : string)
| JsonErrorBody (error : string)
| StreamBody (stream : IterableReadableStream).

Record Response := mkResponse {
  status : nat;
  headers : list (string * string);
  body : ResponseBody
}.

(** [new Response(text, { status })]. *)
Definition new_Response (text : string) (st : nat) : Response :=
  mkResponse st [] (TextBody text).

(** [NextResponse.json({ error }, { status })]. *)
Definition NextResponse_json (error : string) (st : nat) : Response :=
  mkResponse st [] (JsonErrorBody error).

(** [new StreamingTextResponse(stream, { headers })]: status 200. *)
Definition new_StreamingTextResponse
    (stream : IterableReadableStream) (hs : list (string * string)) : Response :=
  mkResponse 200 hs (StreamBody stream).

(** Header lookup by name. *)
Fixpoint header (name : string) (hs : list (string * string)) : option string :=
  match hs with
  | [] => None
  | (k, v) :: rest => if String.eqb k name then Some v else header name rest
  end.

(* ===================================================================== *)
(** ** Collaborators, events and the handler monad *)
(* ===================================================================== *)

(** The result of a collaborator call: a value or a thrown/rejected
    error. *)
Inductive Result (A : Type) :=
| Ok (a : A)
| Err (e : JsError).
Arguments Ok {A} a.
Arguments Err {A} e.

(** The failure taxonomy of the specification.  It is a ghost tag on
    thrown exceptions recording which operation failed; the handler's
    [catch] clause never reads it. *)
Inductive FailureKind :=
| AuthFailure
| ValidationError
| UpstreamModelError
| RetrievalError
| SerializationError.

(** Calls that leave the handler, in the order they are issued. *)
Inductive Event :=
| EvAuth
| EvReqJson
| EvConsoleWarn (msg : string)
| EvNewChatTogetherAI (modelName : string)
| EvPineconeIndex (name : string)
| EvFromExistingIndex (namespace : option string)
| EvStream (chat_history : list BaseMessage) (input : string)
| EvRephrase (chat_history : list BaseMessage) (input : string)
| EvSimilaritySearch (namespace : option string) (query : string)
| EvHandleRetrieverEnd (documents : list Document)
| EvAnswer (context : list Document) (chat_history : list BaseMessage) (input : string)
| EvJsonStringify (sources : list SourceEntry)
| EvNewStreamingTextResponse.

(** The collaborators of one request.  The prompt templates of lines
    283-306 are constants of the two model calls. *)
Record World := mkWorld {
  (** [auth()]: the [userId] of the session, [None] when signed out. *)
  auth : Result (option string);
  (** [await req.json()]. *)
  req_json : Result RequestBody;
  (** [process.env.PINECONE_INDEX_NAME]. *)
  env_PINECONE_INDEX_NAME : option string;
  (** [new ChatTogetherAI(...)]. *)
  ChatTogetherAI_ctor : Result unit;
  (** [await PineconeStore.fromExistingIndex(embeddings, { pineconeIndex, namespace })],
      the construction of the embeddings client included. *)
  fromExistingIndex : string -> option string -> Result unit;
  (** The model call of the query rewriter. *)
  llm_rephrase : list BaseMessage -> string -> Result string;
  (** Embedding of the query and nearest-neighbour search in a namespace. *)
  similaritySearch : option string -> string -> Result (list Document);
  (** The streamed model call of the answer synthesizer. *)
  llm_answer : list Document -> list BaseMessage -> string -> Result IterableReadableStream;
  (** Whether [await chain.stream(...)] rejects when the chain fails before
      its first fragment ([true]), or hands back a stream that carries
      the error ([false]).  Both behaviours exist among the versions of
      the chain library.  With [true] the call resolves only once the
      chain has produced its first output: retrieval and the start of
      the answer call lie before its return.  With [false] the call
      returns at once: the chain runs while the handler awaits
      [documentPromise], and the answer call starts only after the
      handler has resumed, serialized the manifest and returned. *)
  stream_rejects_on_setup_failure : bool;
  (** [JSON.stringify] on the source manifest. *)
  JSON_stringify : list SourceEntry -> Result string;
  (** [Buffer.from(s).toString('base64')]. *)
  Buffer_base64 : string -> string
}.

(** The state of one handler run. *)
Record State := mkState {
  trace : list Event;
  (** [documentPromise]: [Some docs] once resolved. *)
  documentPromise : option (list Document)
}.

Definition init : State := mkState [] None.

Inductive Outcome (A : Type) :=
| Returned (a : A)
| Thrown (k : FailureKind) (e : JsError)
| Suspended.
Arguments Returned {A} a.
Arguments Thrown {A} k e.
Arguments Suspended {A}.

Definition M (A : Type) : Type := State -> Outcome A * State.

Definition ret {A : Type} (a : A) : M A := fun s => (Returned a, s).

Definition bind {A B : Type} (m : M A) (f : A -> M B) : M B :=
  fun s =>
    match m s with
    | (Returned a, s') => f a s'
    | (Thrown k e, s') => (Thrown k e, s')
    | (Suspended, s') => (Suspended, s')
    end.

Declare Scope handler_scope.
Delimit Scope handler_scope with handler.
Notation "x <- m ;; k" := (bind m (fun x => k))
  (at level 61, m at next level, right associativity) : handler_scope.
Notation "m ;;; k" := (bind m (fun _ => k))
  (at level 61, right associativity) : handler_scope.
Open Scope handler_scope.

(** [throw e]. *)
Definition throw {A : Type} (k : FailureKind) (e : JsError) : M A :=
  fun s => (Thrown k e, s).

(** [try { m } catch (e) { h e }]. *)
Definition try_catch {A : Type} (m : M A) (h : JsError -> M A) : M A :=
  fun s =>
    match m s with
    | (Thrown _ e, s') => h e s'
    | r => r
    end.

(** Record a call in the trace. *)
Definition emit (ev : Event) : M unit :=
  fun s => (Returned tt, mkState (trace s ++ [ev]) (documentPromise s)).

(** A collaborator's answer enters the handler: a rejection is thrown. *)
Definition lift {A : Type} (k : FailureKind) (r : Result A) : M A :=
  match r with
  | Ok a => ret a
  | Err e => throw k e
  end.

Fixpoint mapM {A B : Type} (f : A -> M B) (l : list A) : M (list B) :=
  match l with
  | [] => ret []
  | x :: rest =>
      y <- f x ;;
      ys <- mapM f rest ;;
      ret (y :: ys)
  end.

(** [new Promise((resolve) => { resolveWithDocuments = resolve })]. *)
Definition new_Promise : M unit :=
  fun s => (Returned tt, mkState (trace s) None).

(** [resolveWithDocuments(documents)]: settles the promise; a promise that
    is already settled keeps its value. *)
Definition resolveWithDocuments (documents : list Document) : M unit :=
  fun s =>
    match documentPromise s with
    | Some _ => (Returned tt, s)
    | None => (Returned tt, mkState (trace s) (Some documents))
    end.

(** [await documentPromise]: the handler resumes with the value of the
    promise, and never resumes when nothing resolves it. *)
Definition await_documentPromise : M (list Document) :=
  fun s =>
    match documentPromise s with
    | Some documents => (Returned documents, s)
    | None => (Suspended, s)
    end.

(* ===================================================================== *)
(** ** The history normalizer (lines 270-281) *)
(* ===================================================================== *)

(** The text of the warning of lines 276-278. *)
Definition unknown_role_warning (r : string) : string :=
  "Unknown message type passed: " ++ Js.dquote ++ r ++ Js.dquote
    ++ ". Falling back to generic message type.".

Definition formatVercelMessages (message : VercelChatMessage) : M BaseMessage :=
  if String.eqb (role message) "user" then
    ret (HumanMessage (content message))
  else if String.eqb (role message) "assistant" then
    ret (AIMessage (content message))
  else
    emit (EvConsoleWarn (unknown_role_warning (role message))) ;;;
    ret (ChatMessage (content message) (role message)).

(* ===================================================================== *)
(** ** The chain library, at its interface (lines 334-400) *)
(* ===================================================================== *)

Record ChatTogetherAI := mkChatModel {
  modelName : string;
  temperature : Z
}.

Record PineconeStore := mkStore {
  pineconeIndex : string;
  namespace : option string
}.

(** [vectorstore.asRetriever({ callbacks })]: the retriever keeps the store
    it was made from and the [handleRetrieverEnd] callbacks. *)
Record Retriever := mkRetriever {
  vectorStore : PineconeStore;
  callbacks : list (list Document -> M unit)
}.

(** A runnable that takes [{ chat_history, input }]. *)
Definition Runnable (A : Type) : Type := list BaseMessage -> string -> M A.

(** [new ChatTogetherAI({ modelName, temperature })]. *)
Definition new_ChatTogetherAI (w : World) (name : string) (temp : Z) : M ChatTogetherAI :=
  emit (EvNewChatTogetherAI name) ;;;
  lift UpstreamModelError (ChatTogetherAI_ctor w) ;;;
  ret (mkChatModel name temp).

(** [pinecone.index(name)]. *)
Definition pinecone_index (name : string) : M string :=
  emit (EvPineconeIndex name) ;;;
  ret name.

(** [PineconeStore.fromExistingIndex(embeddings, { pineconeIndex, namespace })]. *)
Definition PineconeStore_fromExistingIndex
    (w : World) (index : string) (ns : option string) : M PineconeStore :=
  emit (EvFromExistingIndex ns) ;;;
  lift RetrievalError (fromExistingIndex w index ns) ;;;
  ret (mkStore index ns).

Definition asRetriever (store : PineconeStore)
    (cbs : list (list Document -> M unit)) : Retriever :=
  mkRetriever store cbs.

Fixpoint run_callbacks (cbs : list (list Document -> M unit))
    (documents : list Document) : M unit :=
  match cbs with
  | [] => ret tt
  | cb :: rest => cb documents ;;; run_callbacks rest documents
  end.

(** One run of the retriever: the search is issued in the namespace of the
    store; when it returns, the retriever calls [handleRetrieverEnd] with
    the documents found. *)
Definition Retriever_invoke (w : World) (r : Retriever) (query : string)
    : M (list Document) :=
  emit (EvSimilaritySearch (namespace (vectorStore r)) query) ;;;
  documents <- lift RetrievalError
                 (similaritySearch w (namespace (vectorStore r)) query) ;;
  emit (EvHandleRetrieverEnd documents) ;;;
  run_callbacks (callbacks r) documents ;;;
  ret documents.

(** [createHistoryAwareRetriever({ llm, retriever, rephrasePrompt })]:
    without history the input is the query; with history the model
    rephrases the conversation into one query first. *)
Definition createHistoryAwareRetriever
    (w : World) (llm : ChatTogetherAI) (retriever : Retriever)
    : Runnable (list Document) :=
  fun chat_history input =>
    match chat_history with
    | [] => Retriever_invoke w retriever input
    | _ :: _ =>
        emit (EvRephrase chat_history input) ;;;
        query <- lift UpstreamModelError (llm_rephrase w chat_history input) ;;
        Retriever_invoke w retriever query
    end.

(** [createStuffDocumentsChain({ llm, prompt })]: the answer model call,
    with the documents as context. *)
Definition createStuffDocumentsChain (w : World) (llm : ChatTogetherAI)
    : list Document -> Runnable IterableReadableStream :=
  fun context chat_history input =>
    emit (EvAnswer context chat_history input) ;;;
    lift UpstreamModelError (llm_answer w context chat_history input).

(** [createRetrievalChain({ retriever, combineDocsChain })]: a chain of
    two steps, retrieval and then the answer over the retrieved context. *)
Record RetrievalChain := mkRetrievalChain {
  chain_retriever : Runnable (list Document);
  chain_combineDocs : list Document -> Runnable IterableReadableStream
}.

Definition createRetrievalChain
    (retriever : Runnable (list Document))
    (combineDocsChain : list Document -> Runnable IterableReadableStream)
    : RetrievalChain :=
  mkRetrievalChain retriever combineDocsChain.

(** The stream of a call that has not started yet: the transport will get
    what the call delivers once it runs, fragments or a failure, and the
    events of that later run are not events of the handler. *)
Definition deferred (call : M IterableReadableStream) : IterableReadableStream :=
  match fst (call init) with
  | Returned st => st
  | Thrown _ e => mkStream [] (StreamError e)
  | Suspended => mkStream [] EndOfStream
  end.

(** [await outputChain.stream({ chat_history, input })].

    When the call resolves only after the first output of the chain, both
    steps of the chain have run when it returns, and a failure of either
    rejects it.

    When the call returns at once, the retrieval step runs while the
    handler is suspended in the [await] that follows (the handler does
    nothing between the two, so the events of the step are recorded
    here); a failure of that step stays inside the stream.  The answer
    step has not started when the handler resumes: its stream is
    [deferred]. *)
Definition Runnable_stream (w : World) (chain : RetrievalChain)
    : Runnable IterableReadableStream :=
  fun chat_history input =>
    emit (EvStream chat_history input) ;;;
    if stream_rejects_on_setup_failure w then
      context <- chain_retriever chain chat_history input ;;
      chain_combineDocs chain context chat_history input
    else
      (fun s =>
         match chain_retriever chain chat_history input s with
         | (Returned context, s') =>
             (Returned
                (deferred (chain_combineDocs chain context chat_history input)),
              s')
         | (Thrown _ e, s') => (Returned (mkStream [] (StreamError e)), s')
         | (Suspended, s') => (Suspended, s')
         end).

(* ===================================================================== *)
(** ** The handler (lines 315-423) *)
(* ===================================================================== *)

(** The object literal of lines 406-409. *)
Definition source_entry (doc : Document) : SourceEntry :=
  mkSource (Js.str_slice 0 50 (pageContent doc) ++ "...") (metadata doc).

(** [messages[i].content]: reading [content] of [undefined] throws. *)
Definition content_of (m : option VercelChatMessage) : M string :=
  match m with
  | Some msg => ret (content msg)
  | None => throw ValidationError
              (Error "Cannot read properties of undefined (reading 'content')")
  end.

(** The body of the [try] block. *)
Definition POST_try (w : World) : M Response :=
  userId <- (emit EvAuth ;;; lift AuthFailure (auth w)) ;;
  if Js.falsy userId then
    ret (new_Response "Unauthorized" 401)
  else
    body <- (emit EvReqJson ;;; lift ValidationError (req_json w)) ;;
    let messages := Js.nullish (body_messages body) [] in
    if (length messages =? 0)%nat then
      throw ValidationError (Error "No messages provided.")
    else
      formattedPreviousMessages <-
        mapM formatVercelMessages (Js.slice 0 (-1) messages) ;;
      currentMessageContent <-
        content_of (nth_error messages (length messages - 1)) ;;
      let chatId := body_chatId body in
      model <- new_ChatTogetherAI w "mistralai/Mixtral-8x7B-Instruct-v0.1" 0 ;;
      let PINECONE_INDEX_NAME :=
        Js.nullish (env_PINECONE_INDEX_NAME w) EmptyString in
      index <- pinecone_index PINECONE_INDEX_NAME ;;
      vectorstore <- PineconeStore_fromExistingIndex w index chatId ;;
      new_Promise ;;;
      let retriever :=
        asRetriever vectorstore
          [fun documents => resolveWithDocuments documents] in
      let historyAwareRetrieverChain :=
        createHistoryAwareRetriever w model retriever in
      let documentChain := createStuffDocumentsChain w model in
      let conversationalRetrievalChain :=
        createRetrievalChain historyAwareRetrieverChain documentChain in
      (* [RunnablePick] keeps the answer and [HttpResponseOutputParser]
         encodes it as bytes: the stream of the chain is the stream of
         the answer's fragments. *)
      let outputChain := conversationalRetrievalChain in
      stream <- Runnable_stream w outputChain
                  formattedPreviousMessages currentMessageContent ;;
      documents <- await_documentPromise ;;
      let sources := map source_entry documents in
      json <- (emit (EvJsonStringify sources) ;;;
               lift SerializationError (JSON_stringify w sources)) ;;
      let serializedSources := Buffer_base64 w json in
      emit EvNewStreamingTextResponse ;;;
      ret (new_StreamingTextResponse stream
             [("x-message-index",
               Js.toString (length formattedPreviousMessages + 1));
              ("x-sources", serializedSources)]).

(** [POST]: the [try] block and its [catch] clause (lines 420-422). *)
Definition POST (w : World) : M Response :=
  try_catch (POST_try w)
    (fun e => ret (NextResponse_json (message e) 500)).

(** The response and the final state of a request served in world [w]. *)
Definition run (w : World) : Outcome Response * State := POST w init.

(* ===================================================================== *)
(** ** Sample worlds *)
(* ===================================================================== *)

Module Sample.

Definition doc_long : Document :=
  mkDocument
    "This Agreement may be terminated by either party upon thirty days notice."
    [("page", SNum 3)].

Definition doc_short : Document :=
  mkDocument "hello" [("page", SNum 1)].

Definition answer : IterableReadableStream :=
  mkStream ["The "; "termination "; "clause"] EndOfStream.

Definition messages3 : list VercelChatMessage :=
  [ mkMessage "user" "What is this case about?";
    mkMessage "assistant" "It concerns a contract dispute.";
    mkMessage "user" "Who are the parties?" ].

(** The vector index: chunks with the namespace they are indexed under. *)
Definition index : list (option string * Document) :=
  [ (Some "doc-A", doc_long); (Some "doc-A", doc_short);
    (Some "doc-B", mkDocument "other document" []);
    (None, mkDocument "default namespace" []) ].

Definition ns_eqb (a b : option string) : bool :=
  match a, b with
  | Some x, Some y => String.eqb x y
  | None, None => true
  | _, _ => false
  end.

Definition search (ns : option string) (q : string) : Result (list Document) :=
  Ok (map snd (filter (fun e => ns_eqb (fst e) ns) index)).

(** A signed-in caller, all collaborators answer. *)
Definition happy (b : RequestBody) : World :=
  mkWorld (Ok (Some "user_1")) (Ok b) (Some "pdf-index") (Ok tt)
    (fun _ _ => Ok tt)
    (fun _ input => Ok ("standalone: " ++ input))
    search
    (fun _ _ _ => Ok answer)
    true
    (fun _ => Ok "[json]")
    (fun s => "b64:" ++ s).

Definition body3 : RequestBody := mkBody (Some messages3) (Some "doc-A").

Definition signed_out : World :=
  mkWorld (Ok None) (Ok body3) (Some "pdf-index") (Ok tt)
    (fun _ _ => Ok tt) (fun _ input => Ok input) search
    (fun _ _ _ => Ok answer) true (fun _ => Ok "[json]") (fun s => s).

(** A signed-in caller sends a body without messages. *)
Definition no_messages : World := happy (mkBody None (Some "doc-A")).

(** The serializer rejects the manifest. *)
Definition stringify_fails : World :=
  mkWorld (Ok (Some "user_1")) (Ok body3) (Some "pdf-index") (Ok tt)
    (fun _ _ => Ok tt) (fun _ input => Ok input) search
    (fun _ _ _ => Ok answer) true
    (fun _ => Err (Error "Converting circular structure to JSON"))
    (fun s => s).

(** The vector index cannot be reached; the chain reports the failure
    inside the stream, or by rejecting the [stream] call. *)
Definition search_fails (rejects : bool) : World :=
  mkWorld (Ok (Some "user_1")) (Ok body3) (Some "pdf-index") (Ok tt)
    (fun _ _ => Ok tt) (fun _ input => Ok input)
    (fun _ _ => Err (Error "index unreachable"))
    (fun _ _ _ => Ok answer) rejects (fun _ => Ok "[json]") (fun s => s).

Definition search_fails_in_stream : World := search_fails false.

Definition search_fails_rejected : World := search_fails true.

(** The model provider refuses the rewriting call. *)
Definition rephrase_fails : World :=
  mkWorld (Ok (Some "user_1")) (Ok body3) (Some "pdf-index") (Ok tt)
    (fun _ _ => Ok tt) (fun _ _ => Err (Error "model overloaded"))
    search (fun _ _ _ => Ok answer) true (fun _ => Ok "[json]") (fun s => s).

(** The request body is not JSON. *)
Definition unparsable : World :=
  mkWorld (Ok (Some "user_1")) (Err (Error "Unexpected end of JSON input"))
    (Some "pdf-index") (Ok tt)
    (fun _ _ => Ok tt) (fun _ input => Ok input) search
    (fun _ _ _ => Ok answer) true (fun _ => Ok "[json]") (fun s => s).

(** The authentication check throws. *)
Definition auth_throws : World :=
  mkWorld (Err (Error "auth() was called but middleware is missing"))
    (Ok body3) (Some "pdf-index") (Ok tt)
    (fun _ _ => Ok tt) (fun _ input => Ok input) search
    (fun _ _ _ => Ok answer) true (fun _ => Ok "[json]") (fun s => s).

(** The vector store cannot be opened, and no index name is configured. *)
Definition store_fails : World :=
  mkWorld (Ok (Some "user_1")) (Ok body3) None (Ok tt)
    (fun _ _ => Err (Error "index not found")) (fun _ input => Ok input)
    search (fun _ _ _ => Ok answer) true (fun _ => Ok "[json]") (fun s => s).

(** A request whose prior turns carry roles the normalizer does not know. *)
Definition body_with_tool_turns : RequestBody :=
  mkBody (Some [ mkMessage "system" "be brief"; mkMessage "tool" "lookup";
                 mkMessage "function" "Who are the parties?" ])
         (Some "doc-A").

(** The serializer rejects the manifest, with a chain library whose
    [stream] call returns at once. *)
Definition stringify_fails_lazy : World :=
  mkWorld (Ok (Some "user_1")) (Ok body3) (Some "pdf-index") (Ok tt)
    (fun _ _ => Ok tt) (fun _ input => Ok input) search
    (fun _ _ _ => Ok answer) false
    (fun _ => Err (Error "Converting circular structure to JSON"))
    (fun s => s).

(** All collaborators answer, with a chain library whose [stream] call
    returns at once. *)
Definition happy_lazy (b : RequestBody) : World :=
  mkWorld (Ok (Some "user_1")) (Ok b) (Some "pdf-index") (Ok tt)
    (fun _ _ => Ok tt)
    (fun _ input => Ok ("standalone: " ++ input))
    search
    (fun _ _ _ => Ok answer)
    false
    (fun _ => Ok "[json]")
    (fun s => "b64:" ++ s).

End Sample.

(* ===================================================================== *)
(** ** Vocabulary of the statements *)
(* ===================================================================== *)

(** The message and the warnings that [formatVercelMessages] produces. *)
Definition formatted (m : VercelChatMessage) : BaseMessage :=
  if String.eqb (role m) "user" then HumanMessage (content m)
  else if String.eqb (role m) "assistant" then AIMessage (content m)
  else ChatMessage (content m) (role m).

Definition warnings_of (m : VercelChatMessage) : list Event :=
  if String.eqb (role m) "user" then []
  else if String.eqb (role m) "assistant" then []
  else [EvConsoleWarn (unknown_role_warning (role m))].

(** The state after more calls were recorded. *)
Definition after (s : State) (evs : list Event) : State :=
  mkState (trace s ++ evs) (documentPromise s).

(** The model name of line 335. *)
Definition MODEL_NAME : string := "mistralai/Mixtral-8x7B-Instruct-v0.1".

(** The query rewriter runs only when there is history. *)
Definition rephrase_events (history : list BaseMessage) (input : string)
    : list Event :=
  match history with
  | [] => []
  | _ :: _ => [EvRephrase history input]
  end.

(** The calls a request issues up to the point where retrieval starts. *)
Definition calls_before_retrieval (w : World) (b : RequestBody) (input : string)
    : list Event :=
  let prior := Js.slice 0 (-1) (Js.nullish (body_messages b) []) in
  ([EvAuth; EvReqJson] ++ flat_map warnings_of prior
     ++ [EvNewChatTogetherAI MODEL_NAME;
         EvPineconeIndex (Js.nullish (env_PINECONE_INDEX_NAME w) EmptyString);
         EvFromExistingIndex (body_chatId b);
         EvStream (map formatted prior) input]
     ++ rephrase_events (map formatted prior) input)%list.

(** The answer call lies before the return of the [stream] call, and so
    in the trace of the handler, only when that call waits for the first
    output of the chain. *)
Definition answer_call_events (w : World) (docs : list Document)
    (history : list BaseMessage) (input : string) : list Event :=
  if stream_rejects_on_setup_failure w then [EvAnswer docs history input]
  else [].

(** The operation an event is a call of. *)
Inductive Op :=
| OpAuth | OpReqJson | OpConsoleWarn | OpNewChatTogetherAI | OpPineconeIndex
| OpFromExistingIndex | OpStream | OpRephrase | OpSimilaritySearch
| OpHandleRetrieverEnd | OpAnswer | OpJsonStringify | OpNewStreamingTextResponse.

Definition op_of (ev : Event) : Op :=
  match ev with
  | EvAuth => OpAuth
  | EvReqJson => OpReqJson
  | EvConsoleWarn _ => OpConsoleWarn
  | EvNewChatTogetherAI _ => OpNewChatTogetherAI
  | EvPineconeIndex _ => OpPineconeIndex
  | EvFromExistingIndex _ => OpFromExistingIndex
  | EvStream _ _ => OpStream
  | EvRephrase _ _ => OpRephrase
  | EvSimilaritySearch _ _ => OpSimilaritySearch
  | EvHandleRetrieverEnd _ => OpHandleRetrieverEnd
  | EvAnswer _ _ _ => OpAnswer
  | EvJsonStringify _ => OpJsonStringify
  | EvNewStreamingTextResponse => OpNewStreamingTextResponse
  end.

Definition is_warning (ev : Event) : bool :=
  match ev with
  | EvConsoleWarn _ => true
  | _ => false
  end.

(** The operations of a trace, console warnings left out: the calls to
    the collaborators that can fail. *)
Definition collaborator_calls (t : list Event) : list Op :=
  map op_of (filter (fun ev => negb (is_warning ev)) t).

Module SampleRun.

(** The response of the sample three-turn request. *)
Definition response3 : Response :=
  new_StreamingTextResponse Sample.answer
    [("x-message-index", "3"); ("x-sources", "b64:[json]")].

Definition world3 : World := Sample.happy Sample.body3.

Definition state3 : State := snd (run world3).

End SampleRun.

(** The search service answers a query in a namespace with chunks that
    are indexed under that namespace: [index] lists the chunks of the
    vector index with the namespace each is stored under. *)
Definition namespace_scoped (w : World)
    (index : list (option string * Document)) : Prop :=
  forall ns q docs d,
    similaritySearch w ns q = Ok docs -> In d docs -> In (ns, d) index.

(** The reading of C7 in which the status of the error response tells the
    kinds of failure apart. *)
Definition status_reflects_failure_kind : Prop :=
  forall (w1 w2 : World) (k1 k2 : FailureKind) (e1 e2 : JsError)
         (s1 s2 : State) (r1 r2 : Response),
    POST_try w1 init = (Thrown k1 e1, s1) ->
    POST_try w2 init = (Thrown k2 e2, s2) ->
    run w1 = (Returned r1, s1) ->
    run w2 = (Returned r2, s2) ->
    k1 <> k2 ->
    status r1 <> status r2.

(** Every collaborator answers every call. *)
Definition collaborators_answer (w : World) : Prop :=
  ChatTogetherAI_ctor w = Ok tt /\
  (forall i ns, fromExistingIndex w i ns = Ok tt) /\
  (forall h i, exists q, llm_rephrase w h i = Ok q) /\
  (forall ns q, exists docs, similaritySearch w ns q = Ok docs) /\
  (forall d h i, exists st, llm_answer w d h i = Ok st) /\
  (forall l, exists json, JSON_stringify w l = Ok json).

(* ===================================================================== *)
(** ** The chat page (lines 15-241), its state and handlers *)
(* ===================================================================== *)

Module Page.

(** [Message] of the chat list; [message] and [sourceDocs] may be
    undefined. *)
Record Message := mkMsg {
  type : string;
  message : option string;
  sourceDocs : option (list Document)
}.

(** The state of [useState] at lines 22-35. *)
Record MessageState := mkMessageState {
  messages : list Message;
  pending : option string;
  history : list (string * option string);
  pendingSourceDocs : option (list Document)
}.

(** The component state: [query], [loading], [error], [messageState]. *)
Record PageState := mkPage {
  query : string;
  loading : bool;
  error : option string;
  messageState : MessageState
}.

(** The body of the request of lines 79-83. *)
Record ChatRequest := mkRequest {
  req_chatId : string;
  req_question : string;
  req_history : list (string * option string)
}.

(** The parsed response body, as far as the page reads it. *)
Record Data := mkData {
  data_error : option string;
  data_text : option string;
  data_sourceDocuments : option (list Document)
}.

(** What the page does to the outside. *)
Inductive UiEvent :=
| PreventDefault
| Alert (msg : string)
| Fetch (url : string) (request : ChatRequest)
| ResponseJson
| ScrollToBottom
| ConsoleLog (label : string) (e : JsError).

(** The network: [fetch] and [response.json()] may reject. *)
Record Net := mkNet {
  fetch : string -> ChatRequest -> Result unit;
  response_json : ChatRequest -> Result Data
}.

(** The component state with the log of its effects. *)
Record Ui := mkUi {
  page : PageState;
  log : list UiEvent
}.

Definition UI (A : Type) : Type := Ui -> Result A * Ui.

Definition ret {A : Type} (a : A) : UI A := fun u => (Ok a, u).

Definition bind {A B : Type} (m : UI A) (f : A -> UI B) : UI B :=
  fun u =>
    match m u with
    | (Ok a, u') => f a u'
    | (Err e, u') => (Err e, u')
    end.

Definition seq {B : Type} (m : UI unit) (k : UI B) : UI B :=
  bind m (fun _ => k).

(** [try { m } catch (error) { h error }]. *)
Definition try_catch (m : UI unit) (h : JsError -> UI unit) : UI unit :=
  fun u =>
    match m u with
    | (Err e, u') => h e u'
    | r => r
    end.

Definition effect (ev : UiEvent) : UI unit :=
  fun u => (Ok tt, mkUi (page u) (log u ++ [ev])).

Definition await {A : Type} (r : Result A) : UI A :=
  fun u => (r, u).

Definition setQuery (q : string) : UI unit :=
  fun u =>
    let p := page u in
    (Ok tt, mkUi (mkPage q (loading p) (error p) (messageState p)) (log u)).

Definition setLoading (b : bool) : UI unit :=
  fun u =>
    let p := page u in
    (Ok tt, mkUi (mkPage (query p) b (error p) (messageState p)) (log u)).

Definition setError (e : option string) : UI unit :=
  fun u =>
    let p := page u in
    (Ok tt, mkUi (mkPage (query p) (loading p) e (messageState p)) (log u)).

(** [setMessageState((state) => f state)]. *)
Definition setMessageState (f : MessageState -> MessageState) : UI unit :=
  fun u =>
    let p := page u in
    (Ok tt,
     mkUi (mkPage (query p) (loading p) (error p) (f (messageState p)))
          (log u)).

(** The state of the first render (lines 19-35). *)
Definition initial : PageState :=
  mkPage EmptyString false None
    (mkMessageState
       [mkMsg "apiMessage"
          (Some "Hi, what would you like to learn about this pdf?") None]
       None [] None).

(** [handleSubmit] up to its [try] block (lines 47-70): the part that
    runs before the first [await].  [r] is the render the handler closes
    over; the result is the question when one is sent. *)
Definition handleSubmit_sync (r : PageState) : UI (option string) :=
  seq (effect PreventDefault)
  (seq (setError None)
  (if Js.empty (query r) then
     seq (effect (Alert "Please input a question"))
     (ret None)
   else
     let question := Js.trim (query r) in
     seq (setMessageState
            (fun state =>
               mkMessageState
                 (messages state ++ [mkMsg "userMessage" (Some question) None])
                 (pending state) (history state) (pendingSourceDocs state)))
     (seq (setLoading true)
     (seq (setQuery EmptyString)
     (ret (Some question)))))).

(** The [try] block of [handleSubmit] and its [catch] clause
    (lines 72-110). *)
Definition handleSubmit_exchange (net : Net) (id : string) (r : PageState)
    (question : string) : UI unit :=
  let request := mkRequest id question (history (messageState r)) in
  try_catch
    (seq (effect (Fetch "/chat" request))
    (bind (await (fetch net "/chat" request)) (fun _ =>
     seq (effect ResponseJson)
    (bind (await (response_json net request)) (fun data =>
     seq (if negb (Js.falsy (data_error data)) then
            setError (data_error data)
          else
            setMessageState
              (fun state =>
                 mkMessageState
                   (messages state
                      ++ [mkMsg "apiMessage" (data_text data)
                            (data_sourceDocuments data)])
                   (pending state)
                   (history state ++ [(question, data_text data)])
                   (pendingSourceDocs state)))
    (seq (setLoading false)
         (effect ScrollToBottom)))))))
    (fun error =>
       seq (setLoading false)
      (seq (setError
              (Some "An error occurred while fetching the data. Please try again."))
           (effect (ConsoleLog "error" error)))).

(** [handleSubmit(e)]. *)
Definition handleSubmit (net : Net) (id : string) (r : PageState) : UI unit :=
  bind (handleSubmit_sync r) (fun sent =>
    match sent with
    | None => ret tt
    | Some question => handleSubmit_exchange net id r question
    end).

(** [handleEnter(e)], with [key] the [e.key] of the event. *)
Definition handleEnter (net : Net) (id : string) (r : PageState)
    (key : string) : UI unit :=
  if String.eqb key "Enter" && negb (Js.empty (query r)) then
    handleSubmit net id r
  else if String.eqb key "Enter" then
    effect PreventDefault
  else
    ret tt.

(** An event handler runs as the handler of the current render. *)
Definition submit (net : Net) (id : string) : UI unit :=
  fun u => handleSubmit net id (page u) u.

Definition keyDown (net : Net) (id : string) (key : string) : UI unit :=
  fun u => handleEnter net id (page u) key u.

(** [onChange] of the text area: [setQuery(e.target.value)]. *)
Definition onChange (value : string) : UI unit := setQuery value.

(** The class of a message of the list (lines 140-173). *)
Inductive ClassName :=
| apimessage
| usermessagewaiting
| usermessage.

Record Rendered := mkRendered {
  icon : string;
  className : ClassName
}.

(** The body of the [messages.map] callback, for the message at [index]
    of a list of [n] messages. *)
Definition renderMessage (loading : bool) (n : nat) (index : nat)
    (m : Message) : Rendered :=
  if String.eqb (type m) "apiMessage" then
    mkRendered "/bot-image.png" apimessage
  else
    mkRendered "/usericon.png"
      (if loading && (index =? n - 1)%nat then usermessagewaiting
       else usermessage).

Fixpoint map_index {A B : Type} (f : nat -> A -> B) (from : nat)
    (l : list A) : list B :=
  match l with
  | [] => []
  | x :: rest => f from x :: map_index f (S from) rest
  end.

(** The rendered message list of a state. *)
Definition renderMessages (p : PageState) : list Rendered :=
  let ms := messages (messageState p) in
  map_index (renderMessage (loading p) (length ms)) 0 ms.

(** A user types a question and submits it, one after the other. *)
Fixpoint session (net : Net) (id : string) (questions : list string)
    (u : Ui) : Ui :=
  match questions with
  | [] => u
  | q :: rest =>
      session net id rest (snd (submit net id (snd (onChange q u))))
  end.

(** The number of messages of a type. *)
Definition count_type (t : string) (ms : list Message) : nat :=
  length (filter (fun m => String.eqb (type m) t) ms).

Definition is_fetch (ev : UiEvent) : bool :=
  match ev with
  | Fetch _ _ => true
  | _ => false
  end.

(** The rendered messages that are shown as waiting. *)
Definition is_waiting (r : Rendered) : bool :=
  match className r with
  | usermessagewaiting => true
  | _ => false
  end.

(** Sample networks. *)
Definition answering (text : string) : Net :=
  mkNet (fun _ _ => Ok tt)
        (fun _ => Ok (mkData None (Some text) (Some []))).

Definition refusing (msg : string) : Net :=
  mkNet (fun _ _ => Ok tt)
        (fun _ => Ok (mkData (Some msg) None None)).

Definition offline : Net :=
  mkNet (fun _ _ => Err (Error "Failed to fetch"))
        (fun _ => Err (Error "unreachable")).

End Page.

(** The body of the page's request as the route handler reads it: the
    object has the keys [chatId], [question] and [history], and no
    [messages]. *)
Definition body_of_page_request (r : Page.ChatRequest) : RequestBody :=
  mkBody None (Some (Page.req_chatId r)).

(** Whether the request has turns before its last message. *)
Definition has_prior_turns (w : World) : bool :=
  match req_json w with
  | Ok b =>
      match Js.slice 0 (-1) (Js.nullish (body_messages b) []) with
      | [] => false
      | _ :: _ => true
      end
  | Err _ => false
  end.

(** The order in which a request that is served issues its calls.  The
    rewriting call is there when the request has prior turns
    ([rephrase]); the answer call is there when the [stream] call waits
    for the first output of the chain ([eager]). *)
Definition program_order (rephrase eager : bool) : list Op :=
  ([OpAuth; OpReqJson; OpNewChatTogetherAI; OpPineconeIndex;
    OpFromExistingIndex; OpStream]
   ++ (if rephrase then [OpRephrase] else [])
   ++ [OpSimilaritySearch; OpHandleRetrieverEnd]
   ++ (if eager then [OpAnswer] else [])
   ++ [OpJsonStringify; OpNewStreamingTextResponse])%list.

(** A turn whose role is neither user nor assistant. *)
Definition unknown_role (m : VercelChatMessage) : bool :=
  negb (String.eqb (role m) "user") && negb (String.eqb (role m) "assistant").

(* ===================================================================== *)
(** ** Facts about the built-ins *)
(* ===================================================================== *)

Section SliceFacts.

Context {A : Type}.

(** [l.slice(0, -1)] is [l] without its last element. *)
Lemma slice_0_m1 (l : list A) :
  Js.slice 0 (-1) l = firstn (length l - 1) l.
Proof.
  unfold Js.slice, Js.rel_index; simpl.
  rewrite Z.min_l by lia. simpl.
  f_equal. lia.
Qed.

Lemma slice_0_m1_length (l : list A) :
  length (Js.slice 0 (-1) l) = length l - 1.
Proof.
  rewrite slice_0_m1, length_firstn. lia.
Qed.

(** [l.slice(0, n)] for [n >= 0] is the first [n] elements. *)
Lemma slice_0_n (n : nat) (l : list A) :
  Js.slice 0 (Z.of_nat n) l = firstn n l.
Proof.
  unfold Js.slice, Js.rel_index.
  destruct (Z.of_nat n <? 0)%Z eqn:E; [ apply Z.ltb_lt in E; lia | ].
  change (0 <? 0)%Z with false; cbv iota.
  rewrite (Z.min_l 0) by lia. rewrite Z.sub_0_r.
  change (skipn (Z.to_nat 0) l) with l.
  destruct (Z.min_spec (Z.of_nat n) (Z.of_nat (length l))) as [[H ->] | [H ->]].
  - now rewrite Nat2Z.id.
  - rewrite Nat2Z.id.
    rewrite firstn_all. symmetry. apply firstn_all2. lia.
Qed.

End SliceFacts.

Lemma string_length_of_list (l : list ascii) :
  String.length (string_of_list_ascii l) = length l.
Proof.
  induction l as [| c l IH]; simpl; congruence.
Qed.

Lemma string_length_list (s : string) :
  length (list_ascii_of_string s) = String.length s.
Proof.
  induction s as [| c s IH]; simpl; congruence.
Qed.

Lemma string_length_app (s t : string) :
  String.length (s ++ t) = String.length s + String.length t.
Proof.
  induction s as [| c s IH]; simpl; congruence.
Qed.

(** The first [n] characters of a string are a prefix of it. *)
Lemma prefix_firstn (n : nat) (s : string) :
  String.prefix (string_of_list_ascii (firstn n (list_ascii_of_string s))) s = true.
Proof.
  revert n; induction s as [| c s IH]; intros [| n]; simpl; auto.
  destruct (ascii_dec c c) as [_ | N]; [ apply IH | now elim N ].
Qed.

Lemma str_slice_0_50 (s : string) :
  Js.str_slice 0 50 s = string_of_list_ascii (firstn 50 (list_ascii_of_string s)).
Proof.
  unfold Js.str_slice. now rewrite (slice_0_n 50).
Qed.

Lemma str_slice_0_50_length (s : string) :
  String.length (Js.str_slice 0 50 s) = Nat.min 50 (String.length s).
Proof.
  rewrite str_slice_0_50, string_length_of_list, length_firstn, string_length_list.
  reflexivity.
Qed.

Lemma str_slice_0_50_prefix (s : string) :
  String.prefix (Js.str_slice 0 50 s) s = true.
Proof.
  rewrite str_slice_0_50. apply prefix_firstn.
Qed.

(* ===================================================================== *)
(** ** Facts about the normalizer and the monad *)
(* ===================================================================== *)

Lemma after_nil (s : State) : after s [] = s.
Proof.
  destruct s; unfold after; simpl. now rewrite app_nil_r.
Qed.

Lemma after_after (s : State) (e1 e2 : list Event) :
  after (after s e1) e2 = after s (e1 ++ e2).
Proof.
  unfold after; simpl. now rewrite app_assoc.
Qed.

Lemma formatVercelMessages_run (m : VercelChatMessage) (s : State) :
  formatVercelMessages m s = (Returned (formatted m), after s (warnings_of m)).
Proof.
  unfold formatVercelMessages, formatted, warnings_of.
  destruct (String.eqb (role m) "user");
    [ now rewrite after_nil | ].
  destruct (String.eqb (role m) "assistant");
    [ now rewrite after_nil | ].
  reflexivity.
Qed.

Lemma mapM_formatVercelMessages_run (l : list VercelChatMessage) (s : State) :
  mapM formatVercelMessages l s =
  (Returned (map formatted l), after s (flat_map warnings_of l)).
Proof.
  revert s; induction l as [| m l IH]; intros s; simpl.
  - now rewrite after_nil.
  - unfold bind at 1. rewrite formatVercelMessages_run.
    unfold bind at 1. rewrite IH. unfold ret.
    now rewrite after_after.
Qed.

(** A warning is not a call to the model, the index or the serializer. *)
Lemma warnings_are_warnings (l : list VercelChatMessage) (ev : Event) :
  In ev (flat_map warnings_of l) -> exists msg, ev = EvConsoleWarn msg.
Proof.
  rewrite in_flat_map. intros (m & _ & H).
  unfold warnings_of in H.
  destruct (String.eqb (role m) "user"); [ easy | ].
  destruct (String.eqb (role m) "assistant"); [ easy | ].
  destruct H as [<- | []]. eauto.
Qed.

(* ===================================================================== *)
(** ** The paths of the handler *)
(* ===================================================================== *)

(** Unfold the handler and the chain down to the collaborators. *)
Ltac handler_norm H :=
  cbv beta iota zeta delta
    [run POST POST_try try_catch bind ret throw emit lift init
     new_Promise resolveWithDocuments await_documentPromise
     new_ChatTogetherAI pinecone_index PineconeStore_fromExistingIndex
     asRetriever run_callbacks Retriever_invoke createHistoryAwareRetriever
     createStuffDocumentsChain createRetrievalChain Runnable_stream
     deferred chain_retriever chain_combineDocs fst
     content_of trace documentPromise namespace vectorStore callbacks] in H.

(** Case analysis on the next collaborator the handler is waiting for, in
    program order. *)
Ltac handler_split H :=
  match type of H with
  | context [auth ?w] => destruct (auth w) eqn:?
  | context [Js.falsy ?u] => destruct (Js.falsy u) eqn:?
  | context [req_json ?w] => destruct (req_json w) eqn:?
  | context [(length ?l =? 0)%nat] => destruct (length l =? 0)%nat eqn:?
  | context [mapM formatVercelMessages ?l ?s] =>
      rewrite (mapM_formatVercelMessages_run l s) in H; unfold after in H
  | context [nth_error ?l ?n] => destruct (nth_error l n) eqn:?
  | context [ChatTogetherAI_ctor ?w] => destruct (ChatTogetherAI_ctor w) eqn:?
  | context [fromExistingIndex ?w ?i ?n] =>
      destruct (fromExistingIndex w i n) eqn:?
  | context [stream_rejects_on_setup_failure ?w] =>
      destruct (stream_rejects_on_setup_failure w) eqn:?
  | context [match ?h with [] => _ | _ :: _ => _ end] => destruct h eqn:?
  | context [llm_rephrase ?w ?h ?i] => destruct (llm_rephrase w h i) eqn:?
  | context [similaritySearch ?w ?n ?q] =>
      destruct (similaritySearch w n q) eqn:?
  | context [llm_answer ?w ?d ?h ?i] => destruct (llm_answer w d h i) eqn:?
  | context [JSON_stringify ?w ?l] => destruct (JSON_stringify w l) eqn:?
  end.

(** All paths of a run [H : run w = (o, s)], one goal each. *)
Ltac handler_paths H :=
  handler_norm H; repeat (handler_split H; handler_norm H).

(** Anatomy of a run that ends in the streaming response. *)
Lemma streaming_response_inv (w : World) (r : Response) (s : State)
    (st : IterableReadableStream) :
  run w = (Returned r, s) ->
  body r = StreamBody st ->
  exists uid b last query docs json,
    let messages := Js.nullish (body_messages b) [] in
    let history := map formatted (Js.slice 0 (-1) messages) in
    auth w = Ok uid /\ Js.falsy uid = false /\
    req_json w = Ok b /\
    (length messages =? 0)%nat = false /\
    nth_error messages (length messages - 1) = Some last /\
    similaritySearch w (body_chatId b) query = Ok docs /\
    JSON_stringify w (map source_entry docs) = Ok json /\
    (llm_answer w docs history (content last) = Ok st \/
     exists e, llm_answer w docs history (content last) = Err e /\
               stream_rejects_on_setup_failure w = false /\
               st = mkStream [] (StreamError e)) /\
    r = new_StreamingTextResponse st
          [("x-message-index", Js.toString (length history + 1));
           ("x-sources", Buffer_base64 w json)] /\
    documentPromise s = Some docs /\
    trace s =
      (calls_before_retrieval w b (content last)
         ++ [EvSimilaritySearch (body_chatId b) query;
             EvHandleRetrieverEnd docs]
         ++ answer_call_events w docs history (content last)
         ++ [EvJsonStringify (map source_entry docs);
             EvNewStreamingTextResponse])%list.
Proof.
  intros H Hb. handler_paths H;
    inversion H; subst; clear H; simpl in Hb; try discriminate Hb;
    inversion Hb; subst; clear Hb;
    do 6 eexists; cbv zeta;
    unfold calls_before_retrieval, answer_call_events, MODEL_NAME;
    repeat match goal with
           | E : map formatted _ = _ |- _ => rewrite E
           | E : stream_rejects_on_setup_failure _ = _ |- _ => rewrite E
           end;
    (repeat split; try eassumption; eauto;
     simpl; repeat rewrite <- app_assoc; simpl; reflexivity).
Qed.

(** Membership in the calls issued before retrieval starts. *)
Lemma in_calls_before_retrieval (w : World) (b : RequestBody) (input : string)
    (ev : Event) :
  In ev (calls_before_retrieval w b input) ->
  ev = EvAuth \/ ev = EvReqJson \/ (exists msg, ev = EvConsoleWarn msg) \/
  ev = EvNewChatTogetherAI MODEL_NAME \/
  ev = EvPineconeIndex (Js.nullish (env_PINECONE_INDEX_NAME w) EmptyString) \/
  ev = EvFromExistingIndex (body_chatId b) \/
  (exists h, ev = EvStream h input) \/ (exists h, ev = EvRephrase h input).
Proof.
  unfold calls_before_retrieval.
  rewrite !in_app_iff. intros [H | [H | [H | H]]].
  - simpl in H. intuition auto.
  - apply warnings_are_warnings in H. auto.
  - simpl in H. intuition eauto 10.
  - unfold rephrase_events in H.
    destruct (map formatted _); simpl in H; [ easy | ].
    destruct H as [<- | []]. eauto 10.
Qed.

Lemma collaborator_calls_app (t u : list Event) :
  collaborator_calls (t ++ u) = (collaborator_calls t ++ collaborator_calls u)%list.
Proof.
  unfold collaborator_calls. now rewrite filter_app, map_app.
Qed.

Lemma collaborator_calls_cons (ev : Event) (t : list Event) :
  collaborator_calls (ev :: t) =
  if is_warning ev then collaborator_calls t
  else op_of ev :: collaborator_calls t.
Proof.
  unfold collaborator_calls; simpl. now destruct (is_warning ev).
Qed.

Lemma collaborator_calls_warnings (l : list VercelChatMessage) :
  collaborator_calls (flat_map warnings_of l) = [].
Proof.
  unfold collaborator_calls.
  induction l as [| m l IH]; simpl; [ reflexivity | ].
  rewrite filter_app, map_app, IH, app_nil_r.
  unfold warnings_of.
  destruct (String.eqb (role m) "user"); [ reflexivity | ].
  destruct (String.eqb (role m) "assistant"); reflexivity.
Qed.

(** On every path, each collaborator operation is called at most once. *)
Lemma calls_issued_once (w : World) (o : Outcome Response) (s : State) :
  run w = (o, s) -> NoDup (collaborator_calls (trace s)).
Proof.
  intros H. handler_paths H; inversion H; subst; clear H;
    cbv beta iota delta [trace];
    rewrite ?collaborator_calls_cons, ?collaborator_calls_app,
      ?collaborator_calls_cons, ?collaborator_calls_warnings;
    cbn;
    repeat (first [ apply NoDup_nil | apply NoDup_cons ]);
    cbn; intuition discriminate.
Qed.

(** The [catch] clause turns every exception of the [try] block into the
    structured error response with status 500. *)
Lemma catch_converts (w : World) (k : FailureKind) (e : JsError) (s : State) :
  POST_try w init = (Thrown k e, s) ->
  run w = (Returned (NextResponse_json (message e) 500), s).
Proof.
  intros H. unfold run, POST, try_catch. now rewrite H.
Qed.

Lemma run_never_throws (w : World) (k : FailureKind) (e : JsError) :
  fst (run w) <> Thrown k e.
Proof.
  unfold run, POST, try_catch.
  destruct (POST_try w init) as [[r | k' e' | ] s']; simpl; discriminate.
Qed.

(* ===================================================================== *)
(** ** The history normalizer *)
(* ===================================================================== *)

(** C8: the history normalizer ([formatVercelMessages] mapped over the raw
    turns) returns one typed turn per raw turn, in the same positions: a
    turn tagged user becomes a human message, a turn tagged assistant an
    AI message, and a turn with any other tag a generic message that
    carries the original role string and the content unchanged.  No turn
    is dropped, and a turn with another tag is never turned into a user
    or assistant turn. *)
Theorem normalizer_preserves_turns :
  forall (raw : list VercelChatMessage) (s : State),
  exists (out : list BaseMessage) (s' : State),
    mapM formatVercelMessages raw s = (Returned out, s') /\
    length out = length raw /\
    forall (i : nat) (m : VercelChatMessage),
      nth_error raw i = Some m ->
      (role m = "user" ->
       nth_error out i = Some (HumanMessage (content m))) /\
      (role m = "assistant" ->
       nth_error out i = Some (AIMessage (content m))) /\
      (role m <> "user" -> role m <> "assistant" ->
       nth_error out i = Some (ChatMessage (content m) (role m))).
Proof.
  intros raw s.
  exists (map formatted raw), (after s (flat_map warnings_of raw)).
  split; [ apply mapM_formatVercelMessages_run | ].
  split; [ apply length_map | ].
  intros i m Hi.
  rewrite nth_error_map, Hi; simpl. unfold formatted.
  repeat split.
  - intros ->. reflexivity.
  - intros ->. reflexivity.
  - intros Hu Ha.
    apply String.eqb_neq in Hu, Ha. now rewrite Hu, Ha.
Qed.

Lemma normalizer_preserves_turns_witness :
  let raw := [mkMessage "user" "q1"; mkMessage "assistant" "a1";
              mkMessage "system" "be brief"] in
  exists (out : list BaseMessage) (s' : State),
    mapM formatVercelMessages raw init = (Returned out, s') /\
    length out = length raw /\
    forall (i : nat) (m : VercelChatMessage),
      nth_error raw i = Some m ->
      (role m = "user" ->
       nth_error out i = Some (HumanMessage (content m))) /\
      (role m = "assistant" ->
       nth_error out i = Some (AIMessage (content m))) /\
      (role m <> "user" -> role m <> "assistant" ->
       nth_error out i = Some (ChatMessage (content m) (role m))).
Proof.
  exact (normalizer_preserves_turns
           [mkMessage "user" "q1"; mkMessage "assistant" "a1";
            mkMessage "system" "be brief"] init).
Defined.

Example normalizer_on_mixed_roles :
  fst (mapM formatVercelMessages
         [mkMessage "user" "q1"; mkMessage "assistant" "a1";
          mkMessage "system" "be brief"] init)
  = Returned [HumanMessage "q1"; AIMessage "a1"; ChatMessage "be brief" "system"].
Proof. reflexivity. Qed.

(* ===================================================================== *)
(** ** The source manifest *)
(* ===================================================================== *)

(** C4, as the code has it: for every retrieved chunk, the excerpt of its
    manifest entry is the first 50 characters of the chunk's content (all
    of it when it is shorter) followed by the ellipsis marker.  So the
    excerpt is at most 50 characters plus the marker, and the excerpt
    without the marker is a prefix of the content; the metadata is the
    chunk's. *)
Theorem excerpt_is_prefix_plus_marker :
  forall (docs : list Document) (i : nat) (doc : Document),
    nth_error docs i = Some doc ->
    exists (p : string),
      nth_error (map source_entry docs) i
        = Some (mkSource (p ++ "...") (metadata doc)) /\
      p = Js.str_slice 0 50 (pageContent doc) /\
      String.length p <= 50 /\
      String.prefix p (pageContent doc) = true /\
      String.length (p ++ "...") <= 50 + String.length "...".
Proof.
  intros docs i doc Hi.
  exists (Js.str_slice 0 50 (pageContent doc)).
  rewrite nth_error_map, Hi; simpl.
  repeat split.
  - rewrite str_slice_0_50_length. lia.
  - apply str_slice_0_50_prefix.
  - rewrite string_length_app, str_slice_0_50_length.
    change (String.length "...") with 3. lia.
Qed.

Lemma excerpt_is_prefix_plus_marker_witness :
  nth_error [Sample.doc_long; Sample.doc_short] 0 = Some Sample.doc_long /\
  exists (p : string),
    nth_error (map source_entry [Sample.doc_long; Sample.doc_short]) 0
      = Some (mkSource (p ++ "...") (metadata Sample.doc_long)) /\
    p = Js.str_slice 0 50 (pageContent Sample.doc_long) /\
    String.length p <= 50 /\
    String.prefix p (pageContent Sample.doc_long) = true /\
    String.length (p ++ "...") <= 50 + String.length "...".
Proof.
  split; [ reflexivity | ].
  apply (excerpt_is_prefix_plus_marker
           [Sample.doc_long; Sample.doc_short] 0 Sample.doc_long).
  reflexivity.
Defined.

(** C4, as stated, fails: the excerpt of the chunk ["hello"] is
    ["hello..."], which is not a prefix of ["hello"]. *)
Lemma excerpt_with_marker_is_not_prefix :
  pageContent Sample.doc_short = "hello" /\
  src_pageContent (source_entry Sample.doc_short) = "hello..." /\
  String.prefix (src_pageContent (source_entry Sample.doc_short))
                (pageContent Sample.doc_short) = false.
Proof.
  repeat split.
Qed.

(* ===================================================================== *)
(** ** Rejections *)
(* ===================================================================== *)

(** C5, as the code has it: for every unauthenticated request the handler
    returns status 401 with the plain-text body [Unauthorized], and the
    only call it has issued is the authentication check: the request body
    is not parsed, no model is constructed or called, and no retrieval is
    made. *)
Theorem unauthenticated_is_rejected_first :
  forall (w : World) (userId : option string),
    auth w = Ok userId ->
    Js.falsy userId = true ->
    run w = (Returned (mkResponse 401 [] (TextBody "Unauthorized")),
             mkState [EvAuth] None).
Proof.
  intros w userId Hauth Hfalsy.
  unfold run, POST, try_catch, POST_try, bind, emit, lift, init; simpl.
  rewrite Hauth; simpl. rewrite Hfalsy. reflexivity.
Qed.

Lemma unauthenticated_is_rejected_first_witness :
  auth Sample.signed_out = Ok None /\
  Js.falsy None = true /\
  run Sample.signed_out
    = (Returned (mkResponse 401 [] (TextBody "Unauthorized")),
       mkState [EvAuth] None).
Proof.
  split; [ reflexivity | split; [ reflexivity | ] ].
  apply (unauthenticated_is_rejected_first Sample.signed_out None);
    reflexivity.
Defined.

(** C5, as stated, fails: the response to a signed-out caller has a body,
    the text [Unauthorized]. *)
Lemma unauthorized_response_has_a_body :
  auth Sample.signed_out = Ok None /\
  exists (r : Response) (s : State),
    run Sample.signed_out = (Returned r, s) /\
    status r = 401 /\
    body r = TextBody "Unauthorized" /\
    body r <> NoBody /\
    body r <> TextBody EmptyString.
Proof.
  split; [ reflexivity | ].
  do 2 eexists. split; [ reflexivity | ].
  simpl. repeat split; discriminate.
Qed.

(** C6: for every authenticated request whose message sequence is empty
    or absent, the [try] block throws the validation error
    [No messages provided.] after the authentication check and the body
    parse only, so before any model, embedding or retrieval call, and the
    handler answers with the structured error response carrying that
    message. *)
Theorem empty_messages_are_rejected :
  forall (w : World) (userId : option string) (b : RequestBody),
    auth w = Ok userId ->
    Js.falsy userId = false ->
    req_json w = Ok b ->
    body_messages b = None \/ body_messages b = Some [] ->
    POST_try w init
      = (Thrown ValidationError (Error "No messages provided."),
         mkState [EvAuth; EvReqJson] None) /\
    run w
      = (Returned (mkResponse 500 [] (JsonErrorBody "No messages provided.")),
         mkState [EvAuth; EvReqJson] None).
Proof.
  intros w userId b Hauth Hfalsy Hjson Hempty.
  assert (HT : POST_try w init
               = (Thrown ValidationError (Error "No messages provided."),
                  mkState [EvAuth; EvReqJson] None)).
  { unfold POST_try, bind, emit, lift, init; simpl.
    rewrite Hauth; simpl. rewrite Hfalsy, Hjson; simpl.
    destruct Hempty as [-> | ->]; reflexivity. }
  split; [ exact HT | ].
  apply catch_converts in HT. exact HT.
Qed.

Lemma empty_messages_are_rejected_witness :
  let w := Sample.happy (mkBody None (Some "doc-A")) in
  auth w = Ok (Some "user_1") /\
  Js.falsy (Some "user_1") = false /\
  req_json w = Ok (mkBody None (Some "doc-A")) /\
  POST_try w init
    = (Thrown ValidationError (Error "No messages provided."),
       mkState [EvAuth; EvReqJson] None) /\
  run w
    = (Returned (mkResponse 500 [] (JsonErrorBody "No messages provided.")),
       mkState [EvAuth; EvReqJson] None).
Proof.
  cbv zeta.
  split; [ reflexivity | split; [ reflexivity | split; [ reflexivity | ] ] ].
  apply (empty_messages_are_rejected
           (Sample.happy (mkBody None (Some "doc-A")))
           (Some "user_1") (mkBody None (Some "doc-A")));
    try reflexivity.
  left; reflexivity.
Defined.

(* ===================================================================== *)
(** ** The streaming response *)
(* ===================================================================== *)

(** C9: for every successful request, the [x-message-index] header is the
    decimal text of the number of prior turns (all turns of the request
    but the last, the ones handed to the chain as history) plus one,
    which is the number of turns of the request, the new one included. *)
Theorem message_index_counts_turns :
  forall (w : World) (r : Response) (s : State) (st : IterableReadableStream),
    run w = (Returned r, s) ->
    body r = StreamBody st ->
    exists (b : RequestBody) (input : string),
      let messages := Js.nullish (body_messages b) [] in
      let prior := Js.slice 0 (-1) messages in
      req_json w = Ok b /\
      In (EvStream (map formatted prior) input) (trace s) /\
      header "x-message-index" (headers r)
        = Some (Js.toString (length prior + 1)) /\
      length prior + 1 = length messages.
Proof.
  intros w r s st H Hb.
  destruct (streaming_response_inv w r s st H Hb)
    as (uid & b & last & query & docs & json & Hinv).
  cbv zeta in Hinv.
  destruct Hinv as (_ & _ & Hjson & Hlen & _ & _ & _ & _ & -> & _ & Ht).
  exists b, (content last). cbv zeta.
  split; [ exact Hjson | ].
  split.
  - rewrite Ht. unfold calls_before_retrieval.
    rewrite !in_app_iff. left. right. right. left. simpl. auto.
  - simpl. rewrite length_map. split; [ reflexivity | ].
    rewrite slice_0_m1_length.
    apply Nat.eqb_neq in Hlen. lia.
Qed.

Lemma message_index_counts_turns_witness :
  run SampleRun.world3 = (Returned SampleRun.response3, SampleRun.state3) /\
  body SampleRun.response3 = StreamBody Sample.answer /\
  exists (b : RequestBody) (input : string),
    let messages := Js.nullish (body_messages b) [] in
    let prior := Js.slice 0 (-1) messages in
    req_json SampleRun.world3 = Ok b /\
    In (EvStream (map formatted prior) input) (trace SampleRun.state3) /\
    header "x-message-index" (headers SampleRun.response3)
      = Some (Js.toString (length prior + 1)) /\
    length prior + 1 = length messages.
Proof.
  split; [ reflexivity | split; [ reflexivity | ] ].
  apply (message_index_counts_turns
           SampleRun.world3 SampleRun.response3 SampleRun.state3 Sample.answer);
    reflexivity.
Defined.

(** C1: for every request that is answered with the streaming response,
    the nearest-neighbour search and the end of retrieval (which resolves
    the promise the handler awaits with the documents the search
    returned) come first, then the serialization of the manifest built
    from those documents, and only then, as the last event of the run,
    the construction of the streaming response.  Nothing is retrieved
    after the end of retrieval: the only call that can lie between it and
    the serialization is the start of the answer model call.  The
    response carries the serialized manifest in its [x-sources] header,
    and its body is the stream of the answer model call, whose fragments
    are delivered after the handler has returned. *)
Theorem manifest_is_built_before_the_response :
  forall (w : World) (r : Response) (s : State) (st : IterableReadableStream),
    run w = (Returned r, s) ->
    body r = StreamBody st ->
    exists (pre mid : list Event) (ns : option string) (query : string)
           (docs : list Document) (history : list BaseMessage)
           (input json : string),
      trace s = (pre ++ [EvSimilaritySearch ns query;
                         EvHandleRetrieverEnd docs]
                     ++ mid
                     ++ [EvJsonStringify (map source_entry docs);
                         EvNewStreamingTextResponse])%list /\
      ~ In EvNewStreamingTextResponse pre /\
      (forall ev, In ev mid -> ev = EvAnswer docs history input) /\
      similaritySearch w ns query = Ok docs /\
      documentPromise s = Some docs /\
      JSON_stringify w (map source_entry docs) = Ok json /\
      header "x-sources" (headers r) = Some (Buffer_base64 w json) /\
      (llm_answer w docs history input = Ok st \/
       exists e, llm_answer w docs history input = Err e /\
                 st = mkStream [] (StreamError e)).
Proof.
  intros w r s st H Hb.
  destruct (streaming_response_inv w r s st H Hb)
    as (uid & b & last & query & docs & json & Hinv).
  cbv zeta in Hinv.
  destruct Hinv as (_ & _ & _ & _ & _ & Hsearch & Hjson & Hans & -> & Hp & Ht).
  exists (calls_before_retrieval w b (content last)),
    (answer_call_events w docs
       (map formatted (Js.slice 0 (-1) (Js.nullish (body_messages b) [])))
       (content last)),
    (body_chatId b), query,
    docs, (map formatted (Js.slice 0 (-1) (Js.nullish (body_messages b) []))),
    (content last), json.
  split; [ exact Ht | ].
  split.
  { intros Hin. apply in_calls_before_retrieval in Hin.
    destruct Hin as [E | [E | [[m E] | [E | [E | [E | [[h E] | [h E]]]]]]]];
      discriminate E. }
  split.
  { intros ev Hin. unfold answer_call_events in Hin.
    destruct (stream_rejects_on_setup_failure w); simpl in Hin;
      [ destruct Hin as [<- | []]; reflexivity | destruct Hin ]. }
  repeat split; auto.
  destruct Hans as [Hok | (e & He & _ & Hst)]; [ now left | right; eauto ].
Qed.

Lemma manifest_is_built_before_the_response_witness :
  run SampleRun.world3 = (Returned SampleRun.response3, SampleRun.state3) /\
  body SampleRun.response3 = StreamBody Sample.answer /\
  exists (pre mid : list Event) (ns : option string) (query : string)
         (docs : list Document) (history : list BaseMessage)
         (input json : string),
    trace SampleRun.state3
      = (pre ++ [EvSimilaritySearch ns query;
                 EvHandleRetrieverEnd docs]
             ++ mid
             ++ [EvJsonStringify (map source_entry docs);
                 EvNewStreamingTextResponse])%list /\
    ~ In EvNewStreamingTextResponse pre /\
    (forall ev, In ev mid -> ev = EvAnswer docs history input) /\
    similaritySearch SampleRun.world3 ns query = Ok docs /\
    documentPromise SampleRun.state3 = Some docs /\
    JSON_stringify SampleRun.world3 (map source_entry docs) = Ok json /\
    header "x-sources" (headers SampleRun.response3)
      = Some (Buffer_base64 SampleRun.world3 json) /\
    (llm_answer SampleRun.world3 docs history input = Ok Sample.answer \/
     exists e, llm_answer SampleRun.world3 docs history input = Err e /\
               Sample.answer = mkStream [] (StreamError e)).
Proof.
  split; [ reflexivity | split; [ reflexivity | ] ].
  apply (manifest_is_built_before_the_response
           SampleRun.world3 SampleRun.response3 SampleRun.state3 Sample.answer);
    reflexivity.
Defined.

(** C3: for every request answered with the streaming response, the
    manifest serialized into the [x-sources] header is the list of the
    documents that the one retrieval of the request returned, mapped
    element by element: it has as many entries as there are retrieved
    chunks, and its i-th entry is the entry of the i-th chunk. *)
Theorem manifest_follows_retrieved_chunks :
  forall (w : World) (r : Response) (s : State) (st : IterableReadableStream),
    run w = (Returned r, s) ->
    body r = StreamBody st ->
    exists (ns : option string) (query : string) (docs : list Document)
           (manifest : list SourceEntry) (json : string),
      In (EvSimilaritySearch ns query) (trace s) /\
      (forall ns' q', In (EvSimilaritySearch ns' q') (trace s) ->
                      ns' = ns /\ q' = query) /\
      similaritySearch w ns query = Ok docs /\
      In (EvJsonStringify manifest) (trace s) /\
      JSON_stringify w manifest = Ok json /\
      header "x-sources" (headers r) = Some (Buffer_base64 w json) /\
      length manifest = length docs /\
      forall (i : nat),
        nth_error manifest i = option_map source_entry (nth_error docs i).
Proof.
  intros w r s st H Hb.
  destruct (streaming_response_inv w r s st H Hb)
    as (uid & b & last & query & docs & json & Hinv).
  cbv zeta in Hinv.
  destruct Hinv as (_ & _ & _ & _ & _ & Hsearch & Hjson & _ & -> & _ & Ht).
  exists (body_chatId b), query, docs, (map source_entry docs), json.
  rewrite Ht.
  assert (Honly : forall ns' q',
             In (EvSimilaritySearch ns' q')
                (calls_before_retrieval w b (content last)
                   ++ [EvSimilaritySearch (body_chatId b) query;
                       EvHandleRetrieverEnd docs]
                   ++ answer_call_events w docs
                        (map formatted
                           (Js.slice 0 (-1) (Js.nullish (body_messages b) [])))
                        (content last)
                   ++ [EvJsonStringify (map source_entry docs);
                       EvNewStreamingTextResponse]) ->
             EvSimilaritySearch ns' q'
             = EvSimilaritySearch (body_chatId b) query).
  { intros ns' q' Hin. rewrite !in_app_iff in Hin.
    destruct Hin as [Hin | [Hin | [Hin | Hin]]].
    - apply in_calls_before_retrieval in Hin.
      destruct Hin as [E | [E | [[m E] | [E | [E | [E | [[h E] | [h E]]]]]]]];
        discriminate E.
    - simpl in Hin.
      destruct Hin as [E | [E | []]]; try discriminate E.
      now symmetry.
    - unfold answer_call_events in Hin.
      destruct (stream_rejects_on_setup_failure w); simpl in Hin;
        [ destruct Hin as [E | []]; discriminate E | destruct Hin ].
    - simpl in Hin.
      destruct Hin as [E | [E | []]]; discriminate E. }
  split; [ rewrite !in_app_iff; right; left; simpl; auto | ].
  split; [ intros ns' q' Hin; apply Honly in Hin; now inversion Hin | ].
  split; [ exact Hsearch | ].
  split; [ rewrite !in_app_iff; right; right; right; simpl; auto | ].
  split; [ exact Hjson | ].
  split; [ reflexivity | ].
  split.
  - apply length_map.
  - intros i. apply nth_error_map.
Qed.

Lemma manifest_follows_retrieved_chunks_witness :
  run SampleRun.world3 = (Returned SampleRun.response3, SampleRun.state3) /\
  body SampleRun.response3 = StreamBody Sample.answer /\
  exists (ns : option string) (query : string) (docs : list Document)
         (manifest : list SourceEntry) (json : string),
    In (EvSimilaritySearch ns query) (trace SampleRun.state3) /\
    (forall ns' q', In (EvSimilaritySearch ns' q') (trace SampleRun.state3) ->
                    ns' = ns /\ q' = query) /\
    similaritySearch SampleRun.world3 ns query = Ok docs /\
    In (EvJsonStringify manifest) (trace SampleRun.state3) /\
    JSON_stringify SampleRun.world3 manifest = Ok json /\
    header "x-sources" (headers SampleRun.response3)
      = Some (Buffer_base64 SampleRun.world3 json) /\
    length manifest = length docs /\
    forall (i : nat),
      nth_error manifest i = option_map source_entry (nth_error docs i).
Proof.
  split; [ reflexivity | split; [ reflexivity | ] ].
  apply (manifest_follows_retrieved_chunks
           SampleRun.world3 SampleRun.response3 SampleRun.state3 Sample.answer);
    reflexivity.
Defined.

(* ===================================================================== *)
(** ** Namespace isolation *)
(* ===================================================================== *)

(** Break a membership [Hin : In ev t] in a concrete trace into the
    equations [ev = e] for the events [e] of the trace. *)
Ltac trace_cases Hin :=
  cbv beta iota delta [trace] in Hin;
  simpl in Hin;
  repeat match goal with
         | H : _ \/ _ |- _ => destruct H as [H | H]
         | H : False |- _ => destruct H
         | H : In _ (flat_map warnings_of _) |- _ =>
             apply warnings_are_warnings in H; destruct H as [? H]
         | H : In _ (_ ++ _) |- _ => rewrite in_app_iff in H
         | H : In _ (_ :: _) |- _ => simpl in H
         | H : In _ [] |- _ => destruct H
         end.

(** On every path, the store is built and searched in the namespace the
    request names, and the documents handed to the callback and to the
    promise are those a search in that namespace returned. *)
Lemma calls_use_the_request_namespace (w : World) (b : RequestBody)
    (o : Outcome Response) (s : State) :
  req_json w = Ok b ->
  run w = (o, s) ->
  (forall ns, In (EvFromExistingIndex ns) (trace s) -> ns = body_chatId b) /\
  (forall ns q, In (EvSimilaritySearch ns q) (trace s) ->
                ns = body_chatId b) /\
  (forall docs, In (EvHandleRetrieverEnd docs) (trace s) ->
                exists q, similaritySearch w (body_chatId b) q = Ok docs) /\
  (forall docs, documentPromise s = Some docs ->
                exists q, similaritySearch w (body_chatId b) q = Ok docs).
Proof.
  intros Hjson H. revert Hjson.
  handler_paths H; inversion H; subst; clear H; intros Hjson;
    try discriminate Hjson; try (injection Hjson as <-);
    (split; [ intros ns Hin | split; [ intros ns q Hin |
      split; [ intros docs Hin | intros docs Hin ] ] ]);
    try discriminate Hin;
    try (injection Hin as <-; eexists; eassumption);
    trace_cases Hin;
    try discriminate Hin;
    try (injection Hin as <-; first [ reflexivity
                                    | eexists; eassumption ]);
    try (injection Hin as <- <-; reflexivity).
Qed.

(** C2: for every request whose body carries [chatId], on every path of
    the handler the vector store is built with [namespace] equal to that
    [chatId] and every nearest-neighbour search is issued in that
    namespace.  With a search service that answers from the namespace it
    is asked for, every chunk the retrieval hands over (to the callback
    and so to the awaited promise) is indexed under the request's
    [chatId]: a chunk indexed only under another namespace is never
    retrieved. *)
Theorem searches_stay_in_the_namespace :
  forall (w : World) (b : RequestBody)
         (index : list (option string * Document))
         (o : Outcome Response) (s : State),
    req_json w = Ok b ->
    namespace_scoped w index ->
    run w = (o, s) ->
    (forall ns, In (EvFromExistingIndex ns) (trace s) -> ns = body_chatId b) /\
    (forall ns q, In (EvSimilaritySearch ns q) (trace s) ->
                  ns = body_chatId b) /\
    (forall docs d, In (EvHandleRetrieverEnd docs) (trace s) ->
                    In d docs -> In (body_chatId b, d) index) /\
    (forall docs d, documentPromise s = Some docs ->
                    In d docs -> In (body_chatId b, d) index).
Proof.
  intros w b index o s Hjson Hscoped H.
  destruct (calls_use_the_request_namespace w b o s Hjson H)
    as (Hstore & Hsearch & Hend & Hpromise).
  split; [ exact Hstore | ].
  split; [ exact Hsearch | ].
  split; intros docs d Hin Hd.
  - destruct (Hend docs Hin) as [q Hq]. exact (Hscoped _ _ _ _ Hq Hd).
  - destruct (Hpromise docs Hin) as [q Hq]. exact (Hscoped _ _ _ _ Hq Hd).
Qed.

Lemma filtered_by_namespace (idx : list (option string * Document))
    (ns : option string) (d : Document) :
  In d (map snd (filter (fun e => Sample.ns_eqb (fst e) ns) idx)) ->
  In (ns, d) idx.
Proof.
  intros Hd.
  apply in_map_iff in Hd. destruct Hd as ([ns' d'] & Hsnd & Hin).
  simpl in Hsnd; subst d'.
  apply filter_In in Hin. destruct Hin as [Hin Heq]. simpl in Heq.
  assert (ns' = ns) as <-; [ | exact Hin ].
  destruct ns' as [x |], ns as [y |]; simpl in Heq; try discriminate.
  - apply String.eqb_eq in Heq. now subst.
  - reflexivity.
Qed.

Lemma sample_search_is_scoped (b : RequestBody) :
  namespace_scoped (Sample.happy b) Sample.index.
Proof.
  intros ns q docs d Hs Hd.
  assert (E : docs = map snd (filter (fun e => Sample.ns_eqb (fst e) ns)
                                Sample.index)).
  { change (similaritySearch (Sample.happy b) ns q)
      with (Ok (map snd (filter (fun e => Sample.ns_eqb (fst e) ns)
                           Sample.index))) in Hs.
    now injection Hs as <-. }
  subst docs. now apply filtered_by_namespace.
Qed.

Lemma searches_stay_in_the_namespace_witness :
  req_json SampleRun.world3 = Ok Sample.body3 /\
  run SampleRun.world3 = (Returned SampleRun.response3, SampleRun.state3) /\
  (forall ns, In (EvFromExistingIndex ns) (trace SampleRun.state3) ->
              ns = Some "doc-A") /\
  (forall ns q, In (EvSimilaritySearch ns q) (trace SampleRun.state3) ->
                ns = Some "doc-A") /\
  (forall docs d, In (EvHandleRetrieverEnd docs) (trace SampleRun.state3) ->
                  In d docs -> In (Some "doc-A", d) Sample.index) /\
  (forall docs d, documentPromise SampleRun.state3 = Some docs ->
                  In d docs -> In (Some "doc-A", d) Sample.index).
Proof.
  split; [ reflexivity | split; [ reflexivity | ] ].
  apply (searches_stay_in_the_namespace
           SampleRun.world3 Sample.body3 Sample.index
           (Returned SampleRun.response3) SampleRun.state3).
  - reflexivity.
  - apply sample_search_is_scoped.
  - reflexivity.
Defined.

(* ===================================================================== *)
(** ** The catch clause *)
(* ===================================================================== *)

(** C7, as the code has it: every exception thrown inside the [try]
    block, of whatever kind (validation, model, retrieval, serialization),
    is caught by the one [catch] clause, and the handler returns the
    non-streaming body [{ error: message }] with status 500, the same
    status for every kind.  Up to the failure each collaborator operation
    was called at most once, and the handler issues no call after it: the
    failed operation is not retried. *)
Theorem failures_are_caught_as_status_500 :
  forall (w : World) (k : FailureKind) (e : JsError) (s : State),
    POST_try w init = (Thrown k e, s) ->
    run w = (Returned (mkResponse 500 [] (JsonErrorBody (message e))), s) /\
    NoDup (collaborator_calls (trace s)).
Proof.
  intros w k e s HT.
  pose proof (catch_converts w k e s HT) as Hrun.
  split; [ exact Hrun | ].
  exact (calls_issued_once w _ s Hrun).
Qed.

Lemma failures_are_caught_as_status_500_witness :
  let e := Error "Converting circular structure to JSON" in
  let s := snd (run Sample.stringify_fails) in
  POST_try Sample.stringify_fails init = (Thrown SerializationError e, s) /\
  run Sample.stringify_fails
    = (Returned (mkResponse 500 [] (JsonErrorBody (message e))), s) /\
  NoDup (collaborator_calls (trace s)).
Proof.
  cbv zeta. split; [ reflexivity | ].
  apply (failures_are_caught_as_status_500 Sample.stringify_fails
           SerializationError
           (Error "Converting circular structure to JSON")).
  reflexivity.
Defined.

(** C7, as stated, fails: a validation failure (no messages) and a
    serialization failure get the same status, 500. *)
Lemma status_is_the_same_for_all_failures :
  fst (POST_try Sample.no_messages init)
    = Thrown ValidationError (Error "No messages provided.") /\
  fst (POST_try Sample.stringify_fails init)
    = Thrown SerializationError (Error "Converting circular structure to JSON") /\
  fst (run Sample.no_messages)
    = Returned (mkResponse 500 [] (JsonErrorBody "No messages provided.")) /\
  fst (run Sample.stringify_fails)
    = Returned (mkResponse 500 []
                  (JsonErrorBody "Converting circular structure to JSON")) /\
  ~ status_reflects_failure_kind.
Proof.
  repeat split.
  intros Hreflects.
  refine (Hreflects Sample.no_messages Sample.stringify_fails
            ValidationError SerializationError _ _ _ _ _ _
            eq_refl eq_refl eq_refl eq_refl _ eq_refl).
  discriminate.
Qed.

(* ===================================================================== *)
(** ** A request without [chatId] *)
(* ===================================================================== *)

(** A collaborator that answers has not failed. *)
Ltac answered Hall :=
  destruct Hall as (Hc & Hf & Hr & Hs & Ha & Hj);
  match goal with
  | E : ChatTogetherAI_ctor _ = Err _ |- _ => rewrite Hc in E; discriminate E
  | E : fromExistingIndex _ _ _ = Err _ |- _ => rewrite Hf in E; discriminate E
  | E : llm_rephrase _ ?h ?i = Err _ |- _ =>
      destruct (Hr h i) as [? Hq]; rewrite Hq in E; discriminate E
  | E : similaritySearch _ ?n ?q = Err _ |- _ =>
      destruct (Hs n q) as [? Hq]; rewrite Hq in E; discriminate E
  | E : llm_answer _ ?d ?h ?i = Err _ |- _ =>
      destruct (Ha d h i) as [? Hq]; rewrite Hq in E; discriminate E
  | E : JSON_stringify _ ?l = Err _ |- _ =>
      destruct (Hj l) as [? Hq]; rewrite Hq in E; discriminate E
  end.

Lemma last_index_defined {A : Type} (x : A) (l : list A) :
  nth_error (x :: l) (length (x :: l) - 1) <> None.
Proof.
  intros H. apply nth_error_None in H. simpl in H. lia.
Qed.

(** Identify the parsed body of a path with the body of the request, and
    close the paths that a non-empty message list rules out. *)
Ltac with_request Hjson :=
  try discriminate Hjson;
  try (injection Hjson as ->);
  cbn [Js.nullish body_messages] in *;
  try match goal with
      | E : (length (_ :: _) =? 0)%nat = true |- _ => discriminate E
      | E : nth_error (_ :: _) _ = None |- _ =>
          exfalso; exact (last_index_defined _ _ E)
      end.

(** Unfold a membership goal in a concrete trace into a disjunction. *)
Ltac in_trace :=
  cbv beta iota delta [trace]; cbn [body_chatId];
  repeat (first [ rewrite in_app_iff | progress simpl ]).

(** C10: for every authenticated request whose body has a non-empty
    [messages] list and no [chatId], the [try] block throws no validation
    error.  The handler reads the absent [chatId] as undefined and goes
    on: once the model is constructed it builds the vector store with
    the undefined namespace, every search it issues carries the undefined
    namespace, and when the collaborators answer, the request is served
    with the streaming response after a search in that namespace. *)
Theorem missing_chatId_is_not_rejected :
  forall (w : World) (userId : option string)
         (m : VercelChatMessage) (ms : list VercelChatMessage),
    auth w = Ok userId ->
    Js.falsy userId = false ->
    req_json w = Ok (mkBody (Some (m :: ms)) None) ->
    (forall e s', POST_try w init <> (Thrown ValidationError e, s')) /\
    (forall ns, In (EvFromExistingIndex ns) (trace (snd (run w))) ->
                ns = None) /\
    (forall ns q, In (EvSimilaritySearch ns q) (trace (snd (run w))) ->
                  ns = None) /\
    (ChatTogetherAI_ctor w = Ok tt ->
     In (EvFromExistingIndex None) (trace (snd (run w)))) /\
    (collaborators_answer w ->
     exists r st q,
       run w = (Returned r, snd (run w)) /\
       status r = 200 /\ body r = StreamBody st /\
       In (EvSimilaritySearch None q) (trace (snd (run w)))).
Proof.
  intros w userId m ms Hauth Hfalsy Hjson.
  split.
  { intros e s' HT. revert Hjson.
    handler_paths HT; intros Hjson; with_request Hjson;
      try discriminate HT;
      try (destruct (stream_rejects_on_setup_failure w); discriminate HT). }
  destruct (run w) as [o s] eqn:H. cbn [snd].
  destruct (calls_use_the_request_namespace w _ o s Hjson H)
    as (Hstore & Hsearch & _ & _).
  split; [ exact Hstore | ].
  split; [ exact Hsearch | ].
  split.
  { intros Hctor. revert Hauth Hfalsy Hjson Hctor.
    handler_paths H; inversion H; subst; clear H;
      intros Hauth Hfalsy Hjson Hctor; with_request Hjson;
      try discriminate Hctor; try congruence;
      in_trace; tauto. }
  { intros Hall. revert Hauth Hfalsy Hjson.
    handler_paths H; inversion H; subst; clear H;
      intros Hauth Hfalsy Hjson; with_request Hjson;
      try congruence;
      try (answered Hall);
      do 3 eexists; (split; [ reflexivity | ]);
      (split; [ reflexivity | ]); (split; [ reflexivity | ]);
      in_trace; eauto 20. }
Qed.

Lemma sample_collaborators_answer (b : RequestBody) :
  collaborators_answer (Sample.happy b).
Proof.
  repeat split; intros; eexists; reflexivity.
Qed.

Lemma missing_chatId_is_not_rejected_witness :
  let w := Sample.happy (mkBody (Some Sample.messages3) None) in
  auth w = Ok (Some "user_1") /\
  Js.falsy (Some "user_1") = false /\
  req_json w = Ok (mkBody (Some Sample.messages3) None) /\
  (forall e s', POST_try w init <> (Thrown ValidationError e, s')) /\
  (forall ns, In (EvFromExistingIndex ns) (trace (snd (run w))) ->
              ns = None) /\
  (forall ns q, In (EvSimilaritySearch ns q) (trace (snd (run w))) ->
                ns = None) /\
  (ChatTogetherAI_ctor w = Ok tt ->
   In (EvFromExistingIndex None) (trace (snd (run w)))) /\
  (collaborators_answer w ->
   exists r st q,
     run w = (Returned r, snd (run w)) /\
     status r = 200 /\ body r = StreamBody st /\
     In (EvSimilaritySearch None q) (trace (snd (run w)))).
Proof.
  cbv zeta.
  split; [ reflexivity | split; [ reflexivity | split; [ reflexivity | ] ] ].
  apply (missing_chatId_is_not_rejected
           (Sample.happy (mkBody (Some Sample.messages3) None))
           (Some "user_1")
           (mkMessage "user" "What is this case about?")
           [ mkMessage "assistant" "It concerns a contract dispute.";
             mkMessage "user" "Who are the parties?" ]);
    reflexivity.
Defined.

(** With the sample collaborators the request without [chatId] is served
    from the default namespace. *)
Example missing_chatId_is_served :
  exists r s,
    run (Sample.happy (mkBody (Some Sample.messages3) None)) = (Returned r, s) /\
    status r = 200 /\
    In (EvFromExistingIndex None) (trace s) /\
    documentPromise s = Some [mkDocument "default namespace" []].
Proof.
  do 2 eexists. split; [ reflexivity | ].
  simpl. intuition.
Qed.

(** When the search fails and the chain hands the failure over inside
    the stream, nothing resolves [documentPromise]: the handler stays
    suspended on it and returns no response. *)
Example retrieval_failure_in_stream_suspends :
  fst (run Sample.search_fails_in_stream) = Suspended.
Proof. reflexivity. Qed.

(** When the same failure rejects the [stream] call, it is caught. *)
Example retrieval_failure_rejected_is_caught :
  fst (run Sample.search_fails_rejected)
  = Returned (NextResponse_json "index unreachable" 500).
Proof. reflexivity. Qed.

(** A failure of the rewriting model call that rejects the [stream] call
    is caught as well, and the search is never issued. *)
Example rephrase_failure_is_caught :
  run Sample.rephrase_fails
  = (Returned (NextResponse_json "model overloaded" 500),
     mkState
       [EvAuth; EvReqJson; EvNewChatTogetherAI MODEL_NAME;
        EvPineconeIndex "pdf-index"; EvFromExistingIndex (Some "doc-A");
        EvStream [HumanMessage "What is this case about?";
                  AIMessage "It concerns a contract dispute."]
                 "Who are the parties?";
        EvRephrase [HumanMessage "What is this case about?";
                    AIMessage "It concerns a contract dispute."]
                   "Who are the parties?"]
       None).
Proof. reflexivity. Qed.

(* ===================================================================== *)
(** ** More on the route handler *)
(* ===================================================================== *)

(** X1: whatever the collaborators do, a request is either never answered
    (the handler stays suspended on [documentPromise]) or answered with
    one of three responses: status 401 with the text [Unauthorized],
    status 500 with a JSON error body, or status 200 with the answer
    stream.  The handler itself passes no header to the response
    constructor for 401 and 500, and for 200 exactly the two headers
    [x-message-index] and [x-sources]; what the response classes add on
    their own (the content type) is not part of the statement. *)
Theorem responses_have_three_shapes :
  forall (w : World),
    fst (run w) = Suspended \/
    exists (r : Response),
      fst (run w) = Returned r /\
      (r = mkResponse 401 [] (TextBody "Unauthorized") \/
       (exists msg, r = mkResponse 500 [] (JsonErrorBody msg)) \/
       (exists st index sources,
          r = mkResponse 200
                [("x-message-index", index); ("x-sources", sources)]
                (StreamBody st))).
Proof.
  intros w. destruct (run w) as [o s] eqn:H. cbn [fst].
  handler_paths H; inversion H; subst; clear H;
    first [ left; reflexivity
          | right; eexists; split; [ reflexivity | ];
            first [ left; reflexivity
                  | right; left; eexists; reflexivity
                  | right; right; do 3 eexists; reflexivity ] ].
Qed.

Lemma skipn_at {A : Type} (l : list A) (n : nat) (x : A) :
  nth_error l n = Some x -> skipn n l = x :: skipn (S n) l.
Proof.
  revert n; induction l as [| y l IH]; intros [| n] H;
    simpl in H; try discriminate.
  - now injection H as ->.
  - simpl. now apply IH.
Qed.

Lemma last_splits {A : Type} (l : list A) (x : A) :
  nth_error l (length l - 1) = Some x ->
  l = (Js.slice 0 (-1) l ++ [x])%list.
Proof.
  intros H. rewrite slice_0_m1.
  assert (Hlen : length l - 1 < length l).
  { apply nth_error_Some. congruence. }
  rewrite <- (firstn_skipn (length l - 1) l) at 1. f_equal.
  rewrite (skipn_at l _ x H). f_equal.
  apply skipn_all2. lia.
Qed.

(** X2: whenever the handler starts the chain, the messages of the
    request are the prior turns followed by one last message, in the
    caller's order; the chain gets the normalized prior turns as
    [chat_history] and the content of the last message as [input],
    whatever the role of that last message. *)
Theorem chain_gets_prior_turns_and_last_content :
  forall (w : World) (chat_history : list BaseMessage) (input : string),
    In (EvStream chat_history input) (trace (snd (run w))) ->
    exists (b : RequestBody) (last : VercelChatMessage),
      let messages := Js.nullish (body_messages b) [] in
      let prior := Js.slice 0 (-1) messages in
      req_json w = Ok b /\
      messages = (prior ++ [last])%list /\
      chat_history = map formatted prior /\
      input = content last.
Proof.
  intros w h i Hin. destruct (run w) as [o s] eqn:H. cbn [snd] in Hin.
  handler_paths H; inversion H; subst; clear H;
    trace_cases Hin; try discriminate Hin;
    injection Hin as <- <-;
    do 2 eexists; cbv zeta;
    (split; [ reflexivity | ]);
    (split; [ apply last_splits; eassumption | ]);
    (split; [ congruence | reflexivity ]).
Qed.

Lemma chain_gets_prior_turns_and_last_content_witness :
  let h := [HumanMessage "What is this case about?";
            AIMessage "It concerns a contract dispute."] in
  let i := "Who are the parties?" in
  In (EvStream h i) (trace (snd (run SampleRun.world3))) /\
  exists (b : RequestBody) (last : VercelChatMessage),
    let messages := Js.nullish (body_messages b) [] in
    let prior := Js.slice 0 (-1) messages in
    req_json SampleRun.world3 = Ok b /\
    messages = (prior ++ [last])%list /\
    h = map formatted prior /\
    i = content last.
Proof.
  cbv zeta.
  assert (Hin : In (EvStream
                      [HumanMessage "What is this case about?";
                       AIMessage "It concerns a contract dispute."]
                      "Who are the parties?")
                   (trace (snd (run SampleRun.world3)))).
  { simpl. auto 10. }
  split; [ exact Hin | ].
  exact (chain_gets_prior_turns_and_last_content SampleRun.world3 _ _ Hin).
Defined.

(** X3: on every path the calls to the collaborators are issued in
    program order: the calls of a run are an initial part of the sequence
    authentication, body parse, model construction, index handle, vector
    store, chain start, rewriting call, search, end of retrieval, answer
    call, serialization, response, in which the rewriting call stands
    exactly when the request has turns before its last message, and the
    answer call exactly when the [stream] call waits for the first output
    of the chain (otherwise the answer call is not issued before the
    handler returns).  So the body is never parsed before the
    authentication check, rewriting never follows the search, and
    nothing is serialized before retrieval has ended. *)
Theorem calls_follow_program_order :
  forall (w : World),
    exists (rest : list Op),
      (collaborator_calls (trace (snd (run w))) ++ rest)%list
      = program_order (has_prior_turns w) (stream_rejects_on_setup_failure w).
Proof.
  intros w. destruct (run w) as [o s] eqn:H. cbn [snd].
  handler_paths H; inversion H; subst; clear H;
    cbv beta iota delta [trace];
    rewrite ?collaborator_calls_cons, ?collaborator_calls_app,
      ?collaborator_calls_cons, ?collaborator_calls_warnings;
    unfold program_order, has_prior_turns;
    repeat match goal with
           | E : req_json _ = _ |- _ => rewrite E; clear E
           | E : stream_rejects_on_setup_failure _ = _ |- _ =>
               rewrite E; clear E
           end;
    try match goal with
        | E : map formatted ?X = _ |- _ =>
            destruct X; simpl in E; try discriminate E
        end;
    repeat match goal with
           | |- context [match req_json ?x with _ => _ end] =>
               destruct (req_json x)
           | |- context [match Js.slice ?a ?b ?l with _ => _ end] =>
               destruct (Js.slice a b l)
           | |- context [if stream_rejects_on_setup_failure ?x then _ else _] =>
               destruct (stream_rejects_on_setup_failure x)
           end;
    cbn; eexists; reflexivity.
Qed.

(** A search that the service refuses has not succeeded. *)
Ltac refused Hfail :=
  match goal with
  | E : similaritySearch _ ?n ?q = Ok _ |- _ =>
      destruct (Hfail n q) as [? Hq]; rewrite Hq in E; discriminate E
  end.

(** X4: when the search service fails every search, the answer model is
    never called, nothing is serialized, and no request is answered with
    status 200. *)
Theorem failed_retrieval_gives_no_answer :
  forall (w : World),
    (forall ns q, exists e, similaritySearch w ns q = Err e) ->
    (forall r, fst (run w) = Returned r -> status r <> 200) /\
    (forall ev, In ev (trace (snd (run w))) ->
       op_of ev <> OpAnswer /\ op_of ev <> OpJsonStringify /\
       op_of ev <> OpHandleRetrieverEnd) /\
    documentPromise (snd (run w)) = None.
Proof.
  intros w Hfail. destruct (run w) as [o s] eqn:H. cbn [fst snd].
  handler_paths H; inversion H; subst; clear H; try refused Hfail;
    (split; [ intros r Hr; try discriminate Hr;
              injection Hr as <-; discriminate
            | split; [ | reflexivity ] ]);
    intros ev Hin; trace_cases Hin; subst ev;
    repeat split; discriminate.
Qed.

Lemma failed_retrieval_gives_no_answer_witness :
  let w := Sample.search_fails_rejected in
  (forall ns q, exists e, similaritySearch w ns q = Err e) /\
  (forall r, fst (run w) = Returned r -> status r <> 200) /\
  (forall ev, In ev (trace (snd (run w))) ->
     op_of ev <> OpAnswer /\ op_of ev <> OpJsonStringify /\
     op_of ev <> OpHandleRetrieverEnd) /\
  documentPromise (snd (run w)) = None.
Proof.
  cbv zeta.
  assert (Hfail : forall ns q,
             exists e, similaritySearch Sample.search_fails_rejected ns q
                       = Err e).
  { intros ns q. eexists. reflexivity. }
  split; [ exact Hfail | ].
  exact (failed_retrieval_gives_no_answer Sample.search_fails_rejected Hfail).
Defined.

(** X5: a request is left without any response only in one situation:
    the chain was started, it failed before retrieval ended, and the
    failure did not reject the [stream] call.  Then the promise is
    unresolved, [handleRetrieverEnd] was never called, and the last call
    issued is the rewriting call or the search. *)
Theorem suspended_only_before_retrieval_ends :
  forall (w : World) (s : State),
    run w = (Suspended, s) ->
    stream_rejects_on_setup_failure w = false /\
    documentPromise s = None /\
    (exists h i, In (EvStream h i) (trace s)) /\
    (forall docs, ~ In (EvHandleRetrieverEnd docs) (trace s)) /\
    exists pre ev,
      trace s = (pre ++ [ev])%list /\
      (op_of ev = OpRephrase \/ op_of ev = OpSimilaritySearch).
Proof.
  intros w s H.
  handler_paths H; inversion H; subst; clear H;
    (split; [ reflexivity | ]); (split; [ reflexivity | ]);
    (split; [ do 2 eexists; in_trace; eauto 20 | ]);
    (split; [ intros docs Hin; trace_cases Hin; discriminate Hin | ]);
    refine (ex_intro _ (EvAuth :: EvReqJson :: _) _);
    eexists; (split; [ simpl; reflexivity | ]); simpl; auto.
Qed.

Lemma suspended_only_before_retrieval_ends_witness :
  let w := Sample.search_fails_in_stream in
  let s := snd (run w) in
  run w = (Suspended, s) /\
  stream_rejects_on_setup_failure w = false /\
  documentPromise s = None /\
  (exists h i, In (EvStream h i) (trace s)) /\
  (forall docs, ~ In (EvHandleRetrieverEnd docs) (trace s)) /\
  exists pre ev,
    trace s = (pre ++ [ev])%list /\
    (op_of ev = OpRephrase \/ op_of ev = OpSimilaritySearch).
Proof.
  cbv zeta. split; [ reflexivity | ].
  apply (suspended_only_before_retrieval_ends Sample.search_fails_in_stream).
  reflexivity.
Defined.

(** X6: the handler answers every request for which the rewriting call
    and the search succeed, whatever else fails: it returns a response
    (200, 401 or 500) and is never left suspended. *)
Theorem handler_responds_when_retrieval_succeeds :
  forall (w : World),
    (forall h i, exists q, llm_rephrase w h i = Ok q) ->
    (forall ns q, exists docs, similaritySearch w ns q = Ok docs) ->
    exists (r : Response), fst (run w) = Returned r.
Proof.
  intros w Hr Hs. destruct (run w) as [o s] eqn:H. cbn [fst].
  handler_paths H; inversion H; subst; clear H;
    try (eexists; reflexivity);
    match goal with
    | E : llm_rephrase _ ?h ?i = Err _ |- _ =>
        destruct (Hr h i) as [? Hq]; rewrite Hq in E; discriminate E
    | E : similaritySearch _ ?n ?q = Err _ |- _ =>
        destruct (Hs n q) as [? Hq]; rewrite Hq in E; discriminate E
    end.
Qed.

Lemma handler_responds_when_retrieval_succeeds_witness :
  let w := Sample.stringify_fails in
  (forall h i, exists q, llm_rephrase w h i = Ok q) /\
  (forall ns q, exists docs, similaritySearch w ns q = Ok docs) /\
  exists (r : Response), fst (run w) = Returned r.
Proof.
  cbv zeta.
  assert (Hr : forall h i,
             exists q, llm_rephrase Sample.stringify_fails h i = Ok q).
  { intros h i. eexists. reflexivity. }
  assert (Hs : forall ns q,
             exists docs, similaritySearch Sample.stringify_fails ns q
                          = Ok docs).
  { intros ns q. eexists. reflexivity. }
  split; [ exact Hr | split; [ exact Hs | ] ].
  exact (handler_responds_when_retrieval_succeeds Sample.stringify_fails Hr Hs).
Defined.

Lemma string_of_list_of_string (s : string) :
  string_of_list_ascii (list_ascii_of_string s) = s.
Proof.
  induction s as [| c s IH]; simpl; congruence.
Qed.

(** X7: for a chunk whose content is a non-empty string, the excerpt of
    its manifest entry has exactly [min 50 (length content) + 3]
    characters, and the marker is appended also when nothing was cut: for
    a content of at most 50 characters the excerpt is the whole content
    followed by ["..."]. *)
Theorem excerpt_has_marker_even_when_nothing_is_cut :
  forall (doc : Document),
    pageContent doc <> EmptyString ->
    String.length (src_pageContent (source_entry doc))
      = Nat.min 50 (String.length (pageContent doc)) + 3 /\
    (String.length (pageContent doc) <= 50 ->
     src_pageContent (source_entry doc) = pageContent doc ++ "...").
Proof.
  intros doc _. unfold source_entry; cbn [src_pageContent].
  split.
  - rewrite string_length_app, str_slice_0_50_length. reflexivity.
  - intros Hlen. rewrite str_slice_0_50.
    rewrite firstn_all2 by (rewrite string_length_list; exact Hlen).
    now rewrite string_of_list_of_string.
Qed.

Lemma excerpt_has_marker_even_when_nothing_is_cut_witness :
  pageContent Sample.doc_short <> EmptyString /\
  String.length (src_pageContent (source_entry Sample.doc_short))
    = Nat.min 50 (String.length (pageContent Sample.doc_short)) + 3 /\
  (String.length (pageContent Sample.doc_short) <= 50 ->
   src_pageContent (source_entry Sample.doc_short)
   = pageContent Sample.doc_short ++ "...").
Proof.
  assert (Hne : pageContent Sample.doc_short <> EmptyString)
    by discriminate.
  split; [ exact Hne | ].
  exact (excerpt_has_marker_even_when_nothing_is_cut Sample.doc_short Hne).
Defined.

(** X8: when the request body cannot be parsed ([req.json()] rejects),
    an authenticated caller gets status 500 with the parser's message,
    and nothing but the authentication check and the parse was called. *)
Theorem unparsable_body_is_status_500 :
  forall (w : World) (userId : option string) (e : JsError),
    auth w = Ok userId ->
    Js.falsy userId = false ->
    req_json w = Err e ->
    run w = (Returned (mkResponse 500 [] (JsonErrorBody (message e))),
             mkState [EvAuth; EvReqJson] None).
Proof.
  intros w userId e Hauth Hfalsy Hjson.
  unfold run, POST, try_catch, POST_try, bind, emit, lift, init; simpl.
  rewrite Hauth; simpl. rewrite Hfalsy, Hjson. reflexivity.
Qed.

Lemma unparsable_body_is_status_500_witness :
  let w := Sample.unparsable in
  let e := Error "Unexpected end of JSON input" in
  auth w = Ok (Some "user_1") /\
  Js.falsy (Some "user_1") = false /\
  req_json w = Err e /\
  run w = (Returned (mkResponse 500 [] (JsonErrorBody (message e))),
           mkState [EvAuth; EvReqJson] None).
Proof.
  cbv zeta.
  split; [ reflexivity | split; [ reflexivity | split; [ reflexivity | ] ] ].
  apply (unparsable_body_is_status_500 Sample.unparsable (Some "user_1"));
    reflexivity.
Defined.

(** X9: when the authentication check itself throws, the caller gets
    status 500 with the message of the exception, not 401, and the
    request body is not read. *)
Theorem failing_auth_check_is_status_500 :
  forall (w : World) (e : JsError),
    auth w = Err e ->
    run w = (Returned (mkResponse 500 [] (JsonErrorBody (message e))),
             mkState [EvAuth] None).
Proof.
  intros w e Hauth.
  unfold run, POST, try_catch, POST_try, bind, emit, lift, init; simpl.
  rewrite Hauth. reflexivity.
Qed.

Lemma failing_auth_check_is_status_500_witness :
  let w := Sample.auth_throws in
  let e := Error "auth() was called but middleware is missing" in
  auth w = Err e /\
  run w = (Returned (mkResponse 500 [] (JsonErrorBody (message e))),
           mkState [EvAuth] None).
Proof.
  cbv zeta. split; [ reflexivity | ].
  apply (failing_auth_check_is_status_500 Sample.auth_throws). reflexivity.
Defined.

(** X10: when the vector store cannot be opened, the request ends with
    status 500 and the store's message; the index name is the empty
    string when the environment does not set it; the chain is never
    started, so no model call and no search is made and no promise is
    resolved. *)
Theorem store_failure_stops_before_the_chain :
  forall (w : World) (userId : option string) (b : RequestBody)
         (e : JsError) (u : unit),
    auth w = Ok userId ->
    Js.falsy userId = false ->
    req_json w = Ok b ->
    (length (Js.nullish (body_messages b) []) =? 0)%nat = false ->
    ChatTogetherAI_ctor w = Ok u ->
    fromExistingIndex w (Js.nullish (env_PINECONE_INDEX_NAME w) EmptyString)
      (body_chatId b) = Err e ->
    run w =
    (Returned (mkResponse 500 [] (JsonErrorBody (message e))),
     mkState
       ([EvAuth; EvReqJson]
          ++ flat_map warnings_of (Js.slice 0 (-1) (Js.nullish (body_messages b) []))
          ++ [EvNewChatTogetherAI MODEL_NAME;
              EvPineconeIndex
                (Js.nullish (env_PINECONE_INDEX_NAME w) EmptyString);
              EvFromExistingIndex (body_chatId b)])%list
       None).
Proof.
  intros w userId b e u Hauth Hfalsy Hjson Hlen Hctor Hstore.
  destruct (run w) as [o s] eqn:H.
  revert Hauth Hfalsy Hjson Hlen Hctor Hstore.
  handler_paths H; inversion H; subst; clear H;
    intros Hauth Hfalsy Hjson Hlen Hctor Hstore;
    try discriminate Hauth; try discriminate Hjson; try discriminate Hctor;
    try (injection Hauth as <-); try (injection Hjson as <-);
    try congruence.
  - assert (e0 = e) as -> by congruence.
    unfold MODEL_NAME, NextResponse_json.
    simpl. now rewrite <- !app_assoc.
  - exfalso.
    match goal with
    | E : nth_error _ _ = None |- _ => apply nth_error_None in E
    end.
    apply Nat.eqb_neq in Hlen. lia.
Qed.

Lemma store_failure_stops_before_the_chain_witness :
  let w := Sample.store_fails in
  let e := Error "index not found" in
  auth w = Ok (Some "user_1") /\
  Js.falsy (Some "user_1") = false /\
  req_json w = Ok Sample.body3 /\
  (length (Js.nullish (body_messages Sample.body3) []) =? 0)%nat = false /\
  ChatTogetherAI_ctor w = Ok tt /\
  fromExistingIndex w (Js.nullish (env_PINECONE_INDEX_NAME w) EmptyString)
    (body_chatId Sample.body3) = Err e /\
  run w =
  (Returned (mkResponse 500 [] (JsonErrorBody (message e))),
   mkState
     ([EvAuth; EvReqJson]
        ++ flat_map warnings_of
             (Js.slice 0 (-1) (Js.nullish (body_messages Sample.body3) []))
        ++ [EvNewChatTogetherAI MODEL_NAME;
            EvPineconeIndex
              (Js.nullish (env_PINECONE_INDEX_NAME w) EmptyString);
            EvFromExistingIndex (body_chatId Sample.body3)])%list
     None).
Proof.
  cbv zeta.
  repeat (split; [ reflexivity | ]).
  apply (store_failure_stops_before_the_chain Sample.store_fails
           (Some "user_1") Sample.body3 (Error "index not found") tt);
    reflexivity.
Defined.

(** X11: when [JSON.stringify] throws, retrieval has ended and the
    promise is resolved with the retrieved documents, whose manifest is
    what the serializer refused; no streaming response is constructed and
    the caller gets status 500 with the serializer's message.  Whether a
    model call is lost depends on the chain library: when the [stream]
    call waits for the first output of the chain, the answer model call
    has already been started and its stream is dropped; when the [stream]
    call returns at once, no answer call has been issued. *)
Theorem serialization_failure_comes_after_retrieval :
  forall (w : World) (e : JsError) (s : State),
    POST_try w init = (Thrown SerializationError e, s) ->
    run w = (Returned (mkResponse 500 [] (JsonErrorBody (message e))), s) /\
    (exists docs,
       documentPromise s = Some docs /\
       In (EvHandleRetrieverEnd docs) (trace s) /\
       JSON_stringify w (map source_entry docs) = Err e /\
       (stream_rejects_on_setup_failure w = true ->
        exists h i, In (EvAnswer docs h i) (trace s))) /\
    (stream_rejects_on_setup_failure w = false ->
     forall ev, In ev (trace s) -> op_of ev <> OpAnswer) /\
    ~ In EvNewStreamingTextResponse (trace s).
Proof.
  intros w e s HT.
  split; [ exact (catch_converts w _ e s HT) | ].
  handler_paths HT; try discriminate HT;
    inversion HT; subst; clear HT;
    (split; [ eexists; split; [ reflexivity | ];
              split; [ in_trace; eauto 20 | ];
              split; [ assumption | ];
              intros Hflag; first [ congruence
                                  | do 2 eexists; in_trace; eauto 20 ]
            | split;
              [ intros Hflag; try congruence;
                intros ev Hin; trace_cases Hin; subst ev; discriminate
              | intros Hin; trace_cases Hin; discriminate Hin ] ]).
Qed.

Lemma serialization_failure_comes_after_retrieval_witness :
  let w := Sample.stringify_fails in
  let e := Error "Converting circular structure to JSON" in
  let s := snd (run w) in
  POST_try w init = (Thrown SerializationError e, s) /\
  run w = (Returned (mkResponse 500 [] (JsonErrorBody (message e))), s) /\
  (exists docs,
     documentPromise s = Some docs /\
     In (EvHandleRetrieverEnd docs) (trace s) /\
     JSON_stringify w (map source_entry docs) = Err e /\
     (stream_rejects_on_setup_failure w = true ->
      exists h i, In (EvAnswer docs h i) (trace s))) /\
  (stream_rejects_on_setup_failure w = false ->
   forall ev, In ev (trace s) -> op_of ev <> OpAnswer) /\
  ~ In EvNewStreamingTextResponse (trace s).
Proof.
  cbv zeta. split; [ reflexivity | ].
  apply (serialization_failure_comes_after_retrieval Sample.stringify_fails).
  reflexivity.
Defined.

(** With a chain library whose [stream] call returns at once, the
    serializer fails before any answer call is issued. *)
Example serialization_failure_before_the_answer_call :
  collaborator_calls (trace (snd (run Sample.stringify_fails_lazy)))
  = [OpAuth; OpReqJson; OpNewChatTogetherAI; OpPineconeIndex;
     OpFromExistingIndex; OpStream; OpRephrase; OpSimilaritySearch;
     OpHandleRetrieverEnd; OpJsonStringify].
Proof. reflexivity. Qed.

Lemma warnings_only (l : list VercelChatMessage) :
  filter is_warning (flat_map warnings_of l) = flat_map warnings_of l.
Proof.
  induction l as [| m l IH]; simpl; [ reflexivity | ].
  rewrite filter_app, IH. f_equal.
  unfold warnings_of.
  destruct (String.eqb (role m) "user"); [ reflexivity | ].
  destruct (String.eqb (role m) "assistant"); reflexivity.
Qed.

Lemma warnings_count (l : list VercelChatMessage) :
  length (flat_map warnings_of l) = length (filter unknown_role l).
Proof.
  induction l as [| m l IH]; simpl; [ reflexivity | ].
  rewrite length_app, IH. unfold warnings_of, unknown_role.
  destruct (String.eqb (role m) "user"); [ reflexivity | ].
  destruct (String.eqb (role m) "assistant"); reflexivity.
Qed.

Lemma warnings_as_map (l : list VercelChatMessage) :
  flat_map warnings_of l
  = map (fun m => EvConsoleWarn (unknown_role_warning (role m)))
        (filter unknown_role l).
Proof.
  induction l as [| m l IH]; simpl; [ reflexivity | ].
  rewrite IH. unfold warnings_of, unknown_role.
  destruct (String.eqb (role m) "user"); [ reflexivity | ].
  destruct (String.eqb (role m) "assistant"); reflexivity.
Qed.

(** X12: in a request that is served, the handler logs one warning for
    each prior turn whose role is neither user nor assistant, in the
    order of the turns, and nothing else; the last message is never
    normalized, so its role never causes a warning. *)
Theorem one_warning_per_unknown_prior_turn :
  forall (w : World) (r : Response) (s : State) (st : IterableReadableStream),
    run w = (Returned r, s) ->
    body r = StreamBody st ->
    exists (b : RequestBody),
      let prior := Js.slice 0 (-1) (Js.nullish (body_messages b) []) in
      req_json w = Ok b /\
      filter is_warning (trace s)
        = map (fun m => EvConsoleWarn (unknown_role_warning (role m)))
              (filter unknown_role prior) /\
      length (filter is_warning (trace s)) = length (filter unknown_role prior).
Proof.
  intros w r s st H Hb.
  destruct (streaming_response_inv w r s st H Hb)
    as (uid & b & last & query & docs & json & Hinv).
  cbv zeta in Hinv.
  destruct Hinv as (_ & _ & Hjson & _ & _ & _ & _ & _ & _ & _ & Ht).
  exists b. cbv zeta. split; [ exact Hjson | ].
  assert (Hw : filter is_warning (trace s)
               = flat_map warnings_of
                   (Js.slice 0 (-1) (Js.nullish (body_messages b) []))).
  { rewrite Ht.
    unfold calls_before_retrieval, rephrase_events, answer_call_events.
    rewrite !filter_app, warnings_only.
    destruct (map formatted _);
      destruct (stream_rejects_on_setup_failure w);
      simpl; now rewrite !app_nil_r. }
  split.
  - rewrite Hw. apply warnings_as_map.
  - rewrite Hw. apply warnings_count.
Qed.

Lemma one_warning_per_unknown_prior_turn_witness :
  let w := Sample.happy Sample.body_with_tool_turns in
  let r := new_StreamingTextResponse Sample.answer
             [("x-message-index", "3"); ("x-sources", "b64:[json]")] in
  let s := snd (run w) in
  run w = (Returned r, s) /\
  body r = StreamBody Sample.answer /\
  exists (b : RequestBody),
    let prior := Js.slice 0 (-1) (Js.nullish (body_messages b) []) in
    req_json w = Ok b /\
    filter is_warning (trace s)
      = map (fun m => EvConsoleWarn (unknown_role_warning (role m)))
            (filter unknown_role prior) /\
    length (filter is_warning (trace s)) = length (filter unknown_role prior).
Proof.
  cbv zeta. split; [ reflexivity | split; [ reflexivity | ] ].
  apply (one_warning_per_unknown_prior_turn
           (Sample.happy Sample.body_with_tool_turns)
           (new_StreamingTextResponse Sample.answer
              [("x-message-index", "3"); ("x-sources", "b64:[json]")])
           (snd (run (Sample.happy Sample.body_with_tool_turns)))
           Sample.answer);
    reflexivity.
Defined.

(** X13: the body the chat page sends has the keys [chatId], [question]
    and [history] and no [messages]; read by this handler for an
    authenticated caller, it is rejected with status 500 and the message
    [No messages provided.], whatever the question and the history, and
    before any model or retrieval call. *)
Theorem page_request_has_no_messages :
  forall (w : World) (userId : option string) (request : Page.ChatRequest),
    auth w = Ok userId ->
    Js.falsy userId = false ->
    req_json w = Ok (body_of_page_request request) ->
    run w
    = (Returned (mkResponse 500 [] (JsonErrorBody "No messages provided.")),
       mkState [EvAuth; EvReqJson] None).
Proof.
  intros w userId request Hauth Hfalsy Hjson.
  unfold run, POST, try_catch, POST_try, bind, emit, lift, init; simpl.
  rewrite Hauth; simpl. rewrite Hfalsy, Hjson. reflexivity.
Qed.

Lemma page_request_has_no_messages_witness :
  let request := Page.mkRequest "doc-A" "Who are the parties?" [] in
  let w := Sample.happy (body_of_page_request request) in
  auth w = Ok (Some "user_1") /\
  Js.falsy (Some "user_1") = false /\
  req_json w = Ok (body_of_page_request request) /\
  run w
  = (Returned (mkResponse 500 [] (JsonErrorBody "No messages provided.")),
     mkState [EvAuth; EvReqJson] None).
Proof.
  cbv zeta.
  repeat (split; [ reflexivity | ]).
  apply (page_request_has_no_messages
           (Sample.happy
              (body_of_page_request
                 (Page.mkRequest "doc-A" "Who are the parties?" [])))
           (Some "user_1")
           (Page.mkRequest "doc-A" "Who are the parties?" []));
    reflexivity.
Defined.

(* ===================================================================== *)
(** ** The chat page *)
(* ===================================================================== *)

(** Unfold the page's handlers down to the state updates. *)
Ltac page_norm :=
  cbv beta iota zeta delta
    [Page.submit Page.keyDown Page.handleEnter Page.handleSubmit
     Page.handleSubmit_sync Page.handleSubmit_exchange Page.onChange
     Page.bind Page.seq Page.ret Page.try_catch Page.effect Page.await
     Page.setQuery Page.setLoading Page.setError Page.setMessageState
     Page.page Page.log Page.query Page.loading Page.error
     Page.messageState Page.messages Page.history Page.pending
     Page.pendingSourceDocs fst snd].

(** X14: submitting the form with an empty query sends nothing: the page
    shows the alert, issues no request, and leaves the query, the loading
    flag, the messages and the history as they were; the one change is
    that a displayed error is cleared. *)
Theorem empty_query_is_not_submitted :
  forall (net : Page.Net) (id : string) (u : Page.Ui),
    Page.query (Page.page u) = EmptyString ->
    Page.submit net id u
    = (Ok tt,
       Page.mkUi
         (Page.mkPage EmptyString (Page.loading (Page.page u)) None
            (Page.messageState (Page.page u)))
         (Page.log u ++ [Page.PreventDefault;
                         Page.Alert "Please input a question"])).
Proof.
  intros net id [[q l e ms] lg] Hq. simpl in Hq. subst q.
  page_norm. simpl. now rewrite <- app_assoc.
Qed.

Lemma empty_query_is_not_submitted_witness :
  let u := Page.mkUi Page.initial [] in
  Page.query (Page.page u) = EmptyString /\
  Page.submit Page.offline "doc-A" u
  = (Ok tt,
     Page.mkUi
       (Page.mkPage EmptyString (Page.loading (Page.page u)) None
          (Page.messageState (Page.page u)))
       (Page.log u ++ [Page.PreventDefault;
                       Page.Alert "Please input a question"])).
Proof.
  cbv zeta. split; [ reflexivity | ].
  apply (empty_query_is_not_submitted Page.offline "doc-A"
           (Page.mkUi Page.initial [])).
  reflexivity.
Defined.

(** X15: a submission that the server answers without an error appends
    two messages to the list, the trimmed question as a user message and
    then the answer as an API message with its source documents, and one
    pair (question, answer) to the history; it clears the query and the
    error and ends with loading off.  One request is sent, to [/chat],
    with the document id, the trimmed question and the history as it was
    before this question. *)
Theorem answered_submission_appends_question_and_answer :
  forall (net : Page.Net) (id : string) (u : Page.Ui) (data : Page.Data),
    let p := Page.page u in
    let ms := Page.messageState p in
    let question := Js.trim (Page.query p) in
    let request := Page.mkRequest id question (Page.history ms) in
    Js.empty (Page.query p) = false ->
    Page.fetch net "/chat" request = Ok tt ->
    Page.response_json net request = Ok data ->
    Js.falsy (Page.data_error data) = true ->
    Page.submit net id u
    = (Ok tt,
       Page.mkUi
         (Page.mkPage EmptyString false None
            (Page.mkMessageState
               (Page.messages ms
                  ++ [Page.mkMsg "userMessage" (Some question) None;
                      Page.mkMsg "apiMessage" (Page.data_text data)
                        (Page.data_sourceDocuments data)])
               (Page.pending ms)
               (Page.history ms ++ [(question, Page.data_text data)])
               (Page.pendingSourceDocs ms)))
         (Page.log u ++ [Page.PreventDefault; Page.Fetch "/chat" request;
                         Page.ResponseJson; Page.ScrollToBottom])).
Proof.
  intros net id [[q l e [msgs pd hs psd]] lg] data; cbv zeta; simpl.
  intros Hq Hfetch Hjson Herr.
  page_norm. rewrite Hq. cbv iota beta.
  rewrite Hfetch. cbv iota beta. rewrite Hjson. cbv iota beta.
  rewrite Herr. simpl. now rewrite <- !app_assoc.
Qed.

Lemma answered_submission_appends_question_and_answer_witness :
  let net := Page.answering "A contract dispute." in
  let u := snd (Page.onChange "  What is this case about? "
                  (Page.mkUi Page.initial [])) in
  let data := Page.mkData None (Some "A contract dispute.") (Some []) in
  let p := Page.page u in
  let ms := Page.messageState p in
  let question := Js.trim (Page.query p) in
  let request := Page.mkRequest "doc-A" question (Page.history ms) in
  question = "What is this case about?" /\
  Js.empty (Page.query p) = false /\
  Page.fetch net "/chat" request = Ok tt /\
  Page.response_json net request = Ok data /\
  Js.falsy (Page.data_error data) = true /\
  Page.submit net "doc-A" u
  = (Ok tt,
     Page.mkUi
       (Page.mkPage EmptyString false None
          (Page.mkMessageState
             (Page.messages ms
                ++ [Page.mkMsg "userMessage" (Some question) None;
                    Page.mkMsg "apiMessage" (Page.data_text data)
                      (Page.data_sourceDocuments data)])
             (Page.pending ms)
             (Page.history ms ++ [(question, Page.data_text data)])
             (Page.pendingSourceDocs ms)))
       (Page.log u ++ [Page.PreventDefault; Page.Fetch "/chat" request;
                       Page.ResponseJson; Page.ScrollToBottom])).
Proof.
  cbv zeta.
  repeat (split; [ reflexivity | ]).
  apply (answered_submission_appends_question_and_answer
           (Page.answering "A contract dispute.") "doc-A"
           (snd (Page.onChange "  What is this case about? "
                   (Page.mkUi Page.initial [])))
           (Page.mkData None (Some "A contract dispute.") (Some [])));
    reflexivity.
Defined.

(** X16: when the server answers with an error, the page shows that
    error and keeps the question in the message list without an answer:
    one user message is appended, the history is unchanged, the query is
    cleared and loading ends. *)
Theorem error_answer_keeps_the_question_only :
  forall (net : Page.Net) (id : string) (u : Page.Ui) (data : Page.Data),
    let p := Page.page u in
    let ms := Page.messageState p in
    let question := Js.trim (Page.query p) in
    let request := Page.mkRequest id question (Page.history ms) in
    Js.empty (Page.query p) = false ->
    Page.fetch net "/chat" request = Ok tt ->
    Page.response_json net request = Ok data ->
    Js.falsy (Page.data_error data) = false ->
    Page.submit net id u
    = (Ok tt,
       Page.mkUi
         (Page.mkPage EmptyString false (Page.data_error data)
            (Page.mkMessageState
               (Page.messages ms
                  ++ [Page.mkMsg "userMessage" (Some question) None])
               (Page.pending ms) (Page.history ms)
               (Page.pendingSourceDocs ms)))
         (Page.log u ++ [Page.PreventDefault; Page.Fetch "/chat" request;
                         Page.ResponseJson; Page.ScrollToBottom])).
Proof.
  intros net id [[q l e [msgs pd hs psd]] lg] data; cbv zeta; simpl.
  intros Hq Hfetch Hjson Herr.
  page_norm. rewrite Hq. cbv iota beta.
  rewrite Hfetch. cbv iota beta. rewrite Hjson. cbv iota beta.
  rewrite Herr. simpl. now rewrite <- !app_assoc.
Qed.

Lemma error_answer_keeps_the_question_only_witness :
  let net := Page.refusing "No messages provided." in
  let u := snd (Page.onChange "Who are the parties?"
                  (Page.mkUi Page.initial [])) in
  let data := Page.mkData (Some "No messages provided.") None None in
  let p := Page.page u in
  let ms := Page.messageState p in
  let question := Js.trim (Page.query p) in
  let request := Page.mkRequest "doc-A" question (Page.history ms) in
  Js.empty (Page.query p) = false /\
  Page.fetch net "/chat" request = Ok tt /\
  Page.response_json net request = Ok data /\
  Js.falsy (Page.data_error data) = false /\
  Page.submit net "doc-A" u
  = (Ok tt,
     Page.mkUi
       (Page.mkPage EmptyString false (Page.data_error data)
          (Page.mkMessageState
             (Page.messages ms
                ++ [Page.mkMsg "userMessage" (Some question) None])
             (Page.pending ms) (Page.history ms)
             (Page.pendingSourceDocs ms)))
       (Page.log u ++ [Page.PreventDefault; Page.Fetch "/chat" request;
                       Page.ResponseJson; Page.ScrollToBottom])).
Proof.
  cbv zeta.
  repeat (split; [ reflexivity | ]).
  apply (error_answer_keeps_the_question_only
           (Page.refusing "No messages provided.") "doc-A"
           (snd (Page.onChange "Who are the parties?"
                   (Page.mkUi Page.initial [])))
           (Page.mkData (Some "No messages provided.") None None));
    reflexivity.
Defined.

(** X17: when the request fails on the network, or the response cannot be
    parsed, the submission does not fail: the page shows the fixed text
    [An error occurred while fetching the data. Please try again.],
    logs the exception, keeps the question in the list without an answer,
    leaves the history unchanged and ends with loading off. *)
Theorem network_failure_shows_the_fixed_error :
  forall (net : Page.Net) (id : string) (u : Page.Ui) (e : JsError),
    let p := Page.page u in
    let ms := Page.messageState p in
    let question := Js.trim (Page.query p) in
    let request := Page.mkRequest id question (Page.history ms) in
    Js.empty (Page.query p) = false ->
    Page.fetch net "/chat" request = Err e \/
    (Page.fetch net "/chat" request = Ok tt /\
     Page.response_json net request = Err e) ->
    fst (Page.submit net id u) = Ok tt /\
    Page.page (snd (Page.submit net id u))
    = Page.mkPage EmptyString false
        (Some "An error occurred while fetching the data. Please try again.")
        (Page.mkMessageState
           (Page.messages ms
              ++ [Page.mkMsg "userMessage" (Some question) None])
           (Page.pending ms) (Page.history ms)
           (Page.pendingSourceDocs ms)) /\
    exists mid,
      (mid = [] \/ mid = [Page.ResponseJson]) /\
      Page.log (snd (Page.submit net id u))
      = (Page.log u ++ [Page.PreventDefault; Page.Fetch "/chat" request]
           ++ mid ++ [Page.ConsoleLog "error" e])%list.
Proof.
  intros net id [[q l er [msgs pd hs psd]] lg] e; cbv zeta; simpl.
  intros Hq [Hfetch | [Hfetch Hjson]].
  - page_norm. rewrite Hq. cbv iota beta. rewrite Hfetch. cbv iota beta.
    simpl. repeat split. exists []. split; [ now left | ].
    now rewrite <- !app_assoc.
  - page_norm. rewrite Hq. cbv iota beta. rewrite Hfetch. cbv iota beta.
    rewrite Hjson. cbv iota beta.
    simpl. repeat split. exists [Page.ResponseJson]. split; [ now right | ].
    now rewrite <- !app_assoc.
Qed.

Lemma network_failure_shows_the_fixed_error_witness :
  let net := Page.offline in
  let u := snd (Page.onChange "Who are the parties?"
                  (Page.mkUi Page.initial [])) in
  let e := Error "Failed to fetch" in
  let p := Page.page u in
  let ms := Page.messageState p in
  let question := Js.trim (Page.query p) in
  let request := Page.mkRequest "doc-A" question (Page.history ms) in
  Js.empty (Page.query p) = false /\
  Page.fetch net "/chat" request = Err e /\
  fst (Page.submit net "doc-A" u) = Ok tt /\
  Page.page (snd (Page.submit net "doc-A" u))
  = Page.mkPage EmptyString false
      (Some "An error occurred while fetching the data. Please try again.")
      (Page.mkMessageState
         (Page.messages ms
            ++ [Page.mkMsg "userMessage" (Some question) None])
         (Page.pending ms) (Page.history ms)
         (Page.pendingSourceDocs ms)) /\
  exists mid,
    (mid = [] \/ mid = [Page.ResponseJson]) /\
    Page.log (snd (Page.submit net "doc-A" u))
    = (Page.log u ++ [Page.PreventDefault; Page.Fetch "/chat" request]
         ++ mid ++ [Page.ConsoleLog "error" e])%list.
Proof.
  cbv zeta.
  split; [ reflexivity | split; [ reflexivity | ] ].
  apply (network_failure_shows_the_fixed_error Page.offline "doc-A"
           (snd (Page.onChange "Who are the parties?"
                   (Page.mkUi Page.initial [])))
           (Error "Failed to fetch")).
  - reflexivity.
  - left. reflexivity.
Defined.

(** The four ways a submission can go. *)
Lemma submit_cases (net : Page.Net) (id : string) (u : Page.Ui) :
  let p := Page.page u in
  let ms := Page.messageState p in
  let question := Js.trim (Page.query p) in
  let user := Page.mkMsg "userMessage" (Some question) None in
  exists (er : option string) (lg : list Page.UiEvent),
    (Js.empty (Page.query p) = true /\
     Page.submit net id u
     = (Ok tt,
        Page.mkUi (Page.mkPage (Page.query p) (Page.loading p) None ms) lg))
    \/
    (Js.empty (Page.query p) = false /\
     Page.submit net id u
     = (Ok tt,
        Page.mkUi
          (Page.mkPage EmptyString false er
             (Page.mkMessageState (Page.messages ms ++ [user])
                (Page.pending ms) (Page.history ms)
                (Page.pendingSourceDocs ms)))
          lg))
    \/
    (Js.empty (Page.query p) = false /\
     exists text docs,
       Page.submit net id u
       = (Ok tt,
          Page.mkUi
            (Page.mkPage EmptyString false None
               (Page.mkMessageState
                  (Page.messages ms
                     ++ [user; Page.mkMsg "apiMessage" text docs])
                  (Page.pending ms)
                  (Page.history ms ++ [(question, text)])
                  (Page.pendingSourceDocs ms)))
            lg)).
Proof.
  destruct u as [[q l e [msgs pd hs psd]] lg]; cbv zeta; simpl.
  page_norm.
  destruct (Js.empty q) eqn:Hq.
  - exists None. eexists. left. split; [ reflexivity | ].
    destruct q; [ reflexivity | discriminate Hq ].
  - destruct (Page.fetch net "/chat" _) as [[] | e1] eqn:Hfetch.
    + destruct (Page.response_json net _) as [data | e2] eqn:Hjson.
      * destruct (Js.falsy (Page.data_error data)) eqn:Herr; simpl.
        -- exists None. eexists. right. right. split; [ reflexivity | ].
           do 2 eexists. rewrite <- !app_assoc. reflexivity.
        -- do 2 eexists. right. left. split; reflexivity.
      * do 2 eexists. right. left. split; reflexivity.
    + do 2 eexists. right. left. split; reflexivity.
Qed.

(** X18: a submission never throws and never removes or reorders what the
    page holds: whatever the network does, the messages before are an
    initial part of the messages after, with at most two appended, and
    the history before is an initial part of the history after, with at
    most one pair appended. *)
Theorem submission_only_appends :
  forall (net : Page.Net) (id : string) (u : Page.Ui),
    let before := Page.messageState (Page.page u) in
    let after := Page.messageState (Page.page (snd (Page.submit net id u))) in
    fst (Page.submit net id u) = Ok tt /\
    (exists added,
       Page.messages after = (Page.messages before ++ added)%list /\
       length added <= 2) /\
    (exists added,
       Page.history after = (Page.history before ++ added)%list /\
       length added <= 1).
Proof.
  intros net id u. cbv zeta.
  destruct (submit_cases net id u) as (er & lg & Hcases).
  cbv zeta in Hcases.
  destruct Hcases as [[_ ->] | [[_ ->] | [_ (text & docs & ->)]]]; simpl.
  - split; [ reflexivity | ].
    split; exists []; rewrite app_nil_r; split; auto.
  - split; [ reflexivity | ].
    split; [ eexists; split; [ reflexivity | simpl; lia ] | ].
    exists []; rewrite app_nil_r; split; auto.
  - split; [ reflexivity | ].
    split; eexists; (split; [ reflexivity | simpl; lia ]).
Qed.

(** Read the fields of a page state that is written out. *)
Ltac page_fields :=
  cbn [Page.page Page.messageState Page.messages Page.history Page.loading
       Page.query Page.error snd fst].

Lemma count_type_app (t : string) (l : list Page.Message) (m : Page.Message) :
  Page.count_type t (l ++ [m])
  = Page.count_type t l + (if String.eqb (Page.type m) t then 1 else 0).
Proof.
  unfold Page.count_type. rewrite filter_app, length_app. simpl.
  destruct (String.eqb (Page.type m) t); reflexivity.
Qed.

(** What a conversation keeps true from one submission to the next. *)
Lemma session_invariant (net : Page.Net) (id : string)
    (questions : list string) :
  forall (u : Page.Ui) (n : nat),
    Page.loading (Page.page u) = false ->
    Page.count_type "apiMessage" (Page.messages (Page.messageState (Page.page u)))
      = S (length (Page.history (Page.messageState (Page.page u)))) ->
    Page.count_type "userMessage" (Page.messages (Page.messageState (Page.page u)))
      = n ->
    let u' := Page.session net id questions u in
    Page.loading (Page.page u') = false /\
    Page.count_type "apiMessage"
      (Page.messages (Page.messageState (Page.page u')))
      = S (length (Page.history (Page.messageState (Page.page u')))) /\
    Page.count_type "userMessage"
      (Page.messages (Page.messageState (Page.page u')))
      = n + length (filter (fun q => negb (Js.empty q)) questions).
Proof.
  induction questions as [| q rest IH]; intros u n Hl Ha Hu; cbv zeta.
  - simpl. rewrite Nat.add_0_r. auto.
  - cbn [Page.session filter].
    set (u1 := snd (Page.onChange q u)).
    assert (Hq : Page.query (Page.page u1) = q) by reflexivity.
    assert (Hms : Page.messageState (Page.page u1)
                  = Page.messageState (Page.page u)) by reflexivity.
    assert (Hl1 : Page.loading (Page.page u1) = false) by exact Hl.
    destruct (submit_cases net id u1) as (er & lg & Hcases).
    cbv zeta in Hcases. rewrite Hq, Hms, Hl1 in Hcases.
    destruct Hcases as [[He ->] | [[He ->] | [He (text & docs & ->)]]];
      rewrite He; cbn [negb snd].
    + apply IH; page_fields; [ reflexivity | exact Ha | exact Hu ].
    + cbn [length].
      replace (n + S (length (filter (fun q0 => negb (Js.empty q0)) rest)))
        with (S n + length (filter (fun q0 => negb (Js.empty q0)) rest))
        by lia.
      apply IH; page_fields.
      * reflexivity.
      * rewrite count_type_app. cbn [Page.type String.eqb Ascii.eqb Bool.eqb].
        rewrite Nat.add_0_r. exact Ha.
      * rewrite count_type_app. cbn [Page.type String.eqb Ascii.eqb Bool.eqb].
        lia.
    + cbn [length].
      replace (n + S (length (filter (fun q0 => negb (Js.empty q0)) rest)))
        with (S n + length (filter (fun q0 => negb (Js.empty q0)) rest))
        by lia.
      apply IH; page_fields.
      * reflexivity.
      * change (Page.messages (Page.messageState (Page.page u))
                  ++ [Page.mkMsg "userMessage" (Some (Js.trim q)) None;
                      Page.mkMsg "apiMessage" text docs])%list
          with (Page.messages (Page.messageState (Page.page u))
                  ++ [Page.mkMsg "userMessage" (Some (Js.trim q)) None]
                  ++ [Page.mkMsg "apiMessage" text docs])%list.
        rewrite app_assoc, !count_type_app, length_app.
        cbn [Page.type String.eqb Ascii.eqb Bool.eqb length]. lia.
      * change (Page.messages (Page.messageState (Page.page u))
                  ++ [Page.mkMsg "userMessage" (Some (Js.trim q)) None;
                      Page.mkMsg "apiMessage" text docs])%list
          with (Page.messages (Page.messageState (Page.page u))
                  ++ [Page.mkMsg "userMessage" (Some (Js.trim q)) None]
                  ++ [Page.mkMsg "apiMessage" text docs])%list.
        rewrite app_assoc, !count_type_app.
        cbn [Page.type String.eqb Ascii.eqb Bool.eqb]. lia.
Qed.

(** X19: in a conversation that starts from the first render, whatever
    the questions and whatever the network does, after each submission
    loading is off, the list holds one API message more than the history
    has pairs (the greeting, then one answer per pair), and one user
    message per question that was not empty: a question that got no
    answer stays in the list but never enters the history. *)
Theorem conversation_keeps_history_in_step_with_answers :
  forall (net : Page.Net) (id : string) (questions : list string),
    let u := Page.session net id questions (Page.mkUi Page.initial []) in
    let ms := Page.messageState (Page.page u) in
    Page.loading (Page.page u) = false /\
    Page.count_type "apiMessage" (Page.messages ms)
      = S (length (Page.history ms)) /\
    Page.count_type "userMessage" (Page.messages ms)
      = length (filter (fun q => negb (Js.empty q)) questions).
Proof.
  intros net id questions.
  exact (session_invariant net id questions (Page.mkUi Page.initial []) 0
           eq_refl eq_refl eq_refl).
Qed.

Lemma trimStart_whitespace (l : list ascii) :
  forallb Js.is_whitespace l = true -> Js.trimStart_list l = [].
Proof.
  induction l as [| c l IH]; simpl; [ reflexivity | ].
  intros H. apply andb_true_iff in H. destruct H as [Hc Hl].
  rewrite Hc. now apply IH.
Qed.

Lemma trim_whitespace (s : string) :
  forallb Js.is_whitespace (list_ascii_of_string s) = true ->
  Js.trim s = EmptyString.
Proof.
  intros H. unfold Js.trim. now rewrite (trimStart_whitespace _ H).
Qed.

(** X20: the emptiness check looks at the query before it is trimmed: a
    query that is not empty but holds white space only passes the check,
    and the page sends a request whose question is the empty string and
    lists an empty user message. *)
Theorem blank_query_is_submitted_as_empty_question :
  forall (net : Page.Net) (id : string) (u : Page.Ui),
    Js.empty (Page.query (Page.page u)) = false ->
    forallb Js.is_whitespace (list_ascii_of_string (Page.query (Page.page u)))
      = true ->
    In (Page.Fetch "/chat"
          (Page.mkRequest id EmptyString
             (Page.history (Page.messageState (Page.page u)))))
       (Page.log (snd (Page.submit net id u))) /\
    In (Page.mkMsg "userMessage" (Some EmptyString) None)
       (Page.messages
          (Page.messageState (Page.page (snd (Page.submit net id u))))).
Proof.
  intros net id [[q l e [msgs pd hs psd]] lg]; simpl.
  intros Hq Hws. pose proof (trim_whitespace q Hws) as Ht.
  page_norm. rewrite Hq, Ht. cbv iota beta.
  destruct (Page.fetch net "/chat" _) as [[] | e1];
    [ destruct (Page.response_json net _) as [data | e2];
      [ destruct (Js.falsy (Page.data_error data)) | ] | ];
    simpl; rewrite !in_app_iff; simpl; auto 10.
Qed.

Lemma blank_query_is_submitted_as_empty_question_witness :
  let u := snd (Page.onChange "   " (Page.mkUi Page.initial [])) in
  Js.empty (Page.query (Page.page u)) = false /\
  forallb Js.is_whitespace (list_ascii_of_string (Page.query (Page.page u)))
    = true /\
  In (Page.Fetch "/chat"
        (Page.mkRequest "doc-A" EmptyString
           (Page.history (Page.messageState (Page.page u)))))
     (Page.log (snd (Page.submit Page.offline "doc-A" u))) /\
  In (Page.mkMsg "userMessage" (Some EmptyString) None)
     (Page.messages
        (Page.messageState
           (Page.page (snd (Page.submit Page.offline "doc-A" u))))).
Proof.
  cbv zeta.
  split; [ reflexivity | split; [ reflexivity | ] ].
  apply (blank_query_is_submitted_as_empty_question Page.offline "doc-A"
           (snd (Page.onChange "   " (Page.mkUi Page.initial []))));
    reflexivity.
Defined.

(** X21: each submission with a query that is not empty sends exactly one
    request, whatever the outcome: a failed request is not sent again.
    The request goes to [/chat] and carries the document id, the trimmed
    query, and the history as it was before this question.  A submission
    with an empty query sends none. *)
Theorem one_request_per_submission :
  forall (net : Page.Net) (id : string) (u : Page.Ui),
    let p := Page.page u in
    exists added,
      Page.log (snd (Page.submit net id u)) = (Page.log u ++ added)%list /\
      filter Page.is_fetch added
      = if Js.empty (Page.query p) then []
        else [Page.Fetch "/chat"
                (Page.mkRequest id (Js.trim (Page.query p))
                   (Page.history (Page.messageState p)))].
Proof.
  intros net id [[q l e [msgs pd hs psd]] lg]; cbv zeta; simpl.
  page_norm.
  destruct (Js.empty q) eqn:Hq.
  - eexists. simpl. rewrite <- !app_assoc. split; reflexivity.
  - destruct (Page.fetch net "/chat" _) as [[] | e1];
      [ destruct (Page.response_json net _) as [data | e2];
        [ destruct (Js.falsy (Page.data_error data)) | ] | ];
      eexists; simpl; rewrite <- !app_assoc; split; reflexivity.
Qed.

Lemma nth_error_map_index {A B : Type} (f : nat -> A -> B) (l : list A) :
  forall (from i : nat),
    nth_error (Page.map_index f from l) i
    = option_map (f (from + i)) (nth_error l i).
Proof.
  induction l as [| x l IH]; intros from [| i]; simpl; try reflexivity.
  - now rewrite Nat.add_0_r.
  - rewrite IH. now rewrite Nat.add_succ_r.
Qed.

Lemma length_map_index {A B : Type} (f : nat -> A -> B) (l : list A) :
  forall (from : nat), length (Page.map_index f from l) = length l.
Proof.
  induction l as [| x l IH]; intros from; simpl; [ reflexivity | ].
  now rewrite IH.
Qed.

(** X22: the message list never shows more than one message as waiting:
    a rendered message has the waiting class only while loading is on,
    only at the last position of the list, and only when that message is
    not an API message. *)
Theorem only_the_last_message_can_wait :
  forall (p : Page.PageState) (i : nat) (r : Page.Rendered),
    nth_error (Page.renderMessages p) i = Some r ->
    Page.className r = Page.usermessagewaiting ->
    Page.loading p = true /\
    i = length (Page.messages (Page.messageState p)) - 1 /\
    exists m,
      nth_error (Page.messages (Page.messageState p)) i = Some m /\
      Page.type m <> "apiMessage".
Proof.
  intros p i r Hr Hc. unfold Page.renderMessages in Hr.
  rewrite nth_error_map_index in Hr. simpl in Hr.
  destruct (nth_error (Page.messages (Page.messageState p)) i)
    as [m |] eqn:Hm; [ | discriminate Hr ].
  simpl in Hr. injection Hr as <-.
  unfold Page.renderMessage in Hc.
  destruct (String.eqb (Page.type m) "apiMessage") eqn:Ht;
    [ discriminate Hc | ].
  cbn [Page.className] in Hc.
  destruct (Page.loading p); [ | discriminate Hc ].
  destruct (i =? length (Page.messages (Page.messageState p)) - 1)%nat
    eqn:Hi; [ | discriminate Hc ].
  apply Nat.eqb_eq in Hi. apply String.eqb_neq in Ht.
  repeat split; auto. exists m. auto.
Qed.

Lemma only_the_last_message_can_wait_witness :
  let p := Page.page
             (snd (Page.handleSubmit_sync
                     (Page.mkPage "Who?" false None
                        (Page.messageState Page.initial))
                     (Page.mkUi
                        (Page.mkPage "Who?" false None
                           (Page.messageState Page.initial)) []))) in
  let r := Page.mkRendered "/usericon.png" Page.usermessagewaiting in
  nth_error (Page.renderMessages p) 1 = Some r /\
  Page.className r = Page.usermessagewaiting /\
  Page.loading p = true /\
  1 = length (Page.messages (Page.messageState p)) - 1 /\
  exists m,
    nth_error (Page.messages (Page.messageState p)) 1 = Some m /\
    Page.type m <> "apiMessage".
Proof.
  cbv zeta. split; [ reflexivity | split; [ reflexivity | ] ].
  apply (only_the_last_message_can_wait
           (Page.page
              (snd (Page.handleSubmit_sync
                      (Page.mkPage "Who?" false None
                         (Page.messageState Page.initial))
                      (Page.mkUi
                         (Page.mkPage "Who?" false None
                            (Page.messageState Page.initial)) []))))
           1 (Page.mkRendered "/usericon.png" Page.usermessagewaiting));
    reflexivity.
Defined.

Lemma waiting_is_the_last (from : nat) (ms : list Page.Message)
    (last : Page.Message) :
  Page.type last <> "apiMessage" ->
  length
    (filter Page.is_waiting
       (Page.map_index (Page.renderMessage true (S (from + length ms)))
          from (ms ++ [last])))
  = 1.
Proof.
  revert from.
  induction ms as [| m ms IH]; intros from Hlast; simpl.
  - unfold Page.renderMessage, Page.is_waiting.
    apply String.eqb_neq in Hlast. rewrite Hlast. simpl.
    rewrite Nat.add_0_r, Nat.sub_0_r, Nat.eqb_refl. reflexivity.
  - replace (S (from + S (length ms))) with (S (S from + length ms)) by lia.
    assert (Hhead : Page.is_waiting
                      (Page.renderMessage true (S (S from + length ms)) from m)
                    = false).
    { unfold Page.renderMessage, Page.is_waiting.
      destruct (String.eqb (Page.type m) "apiMessage"); simpl;
        [ reflexivity | ].
      match goal with
      | |- context [(?a =? ?b)%nat] =>
          destruct (a =? b)%nat eqn:E;
          [ apply Nat.eqb_eq in E; lia | reflexivity ]
      end. }
    rewrite Hhead. exact (IH (S from) Hlast).
Qed.

(** X23: between the submission of a query that is not empty and the
    arrival of the response, loading is on, the query is cleared, and the
    message list is the one before with the trimmed question appended;
    that last message, and no other, is rendered with the user icon and
    the waiting class. *)
Theorem submitted_question_waits_at_the_end :
  forall (u : Page.Ui),
    let p := Page.page u in
    let before := Page.messages (Page.messageState p) in
    let p' := Page.page (snd (Page.handleSubmit_sync p u)) in
    Js.empty (Page.query p) = false ->
    fst (Page.handleSubmit_sync p u) = Ok (Some (Js.trim (Page.query p))) /\
    Page.loading p' = true /\
    Page.query p' = EmptyString /\
    Page.messages (Page.messageState p')
    = (before ++ [Page.mkMsg "userMessage" (Some (Js.trim (Page.query p)))
                    None])%list /\
    nth_error (Page.renderMessages p') (length before)
    = Some (Page.mkRendered "/usericon.png" Page.usermessagewaiting) /\
    length (filter Page.is_waiting (Page.renderMessages p')) = 1.
Proof.
  intros [[q l e [msgs pd hs psd]] lg]; cbv zeta; simpl. intros Hq.
  page_norm. rewrite Hq. cbv iota beta. simpl.
  repeat split.
  - unfold Page.renderMessages; simpl.
    rewrite nth_error_map_index, nth_error_app2 by lia.
    rewrite Nat.sub_diag. simpl. unfold Page.renderMessage; simpl.
    rewrite length_app; simpl.
    replace (length msgs + 1 - 1) with (length msgs) by lia.
    now rewrite Nat.eqb_refl.
  - unfold Page.renderMessages; simpl.
    rewrite length_app; simpl.
    replace (length msgs + 1) with (S (0 + length msgs)) by lia.
    apply waiting_is_the_last. simpl. discriminate.
Qed.

Lemma submitted_question_waits_at_the_end_witness :
  let u := snd (Page.onChange " Who are the parties? "
                  (Page.mkUi Page.initial [])) in
  let p := Page.page u in
  let before := Page.messages (Page.messageState p) in
  let p' := Page.page (snd (Page.handleSubmit_sync p u)) in
  Js.empty (Page.query p) = false /\
  fst (Page.handleSubmit_sync p u) = Ok (Some (Js.trim (Page.query p))) /\
  Page.loading p' = true /\
  Page.query p' = EmptyString /\
  Page.messages (Page.messageState p')
  = (before ++ [Page.mkMsg "userMessage" (Some (Js.trim (Page.query p)))
                  None])%list /\
  nth_error (Page.renderMessages p') (length before)
  = Some (Page.mkRendered "/usericon.png" Page.usermessagewaiting) /\
  length (filter Page.is_waiting (Page.renderMessages p')) = 1.
Proof.
  cbv zeta. split; [ reflexivity | ].
  apply (submitted_question_waits_at_the_end
           (snd (Page.onChange " Who are the parties? "
                   (Page.mkUi Page.initial [])))).
  reflexivity.
Defined.

(** X24: a key other than Enter changes nothing.  Enter with an empty
    query only cancels the key's default action: unlike a click on the
    submit button, it shows no alert and does not clear a displayed
    error.  Enter with a query that is not empty does what submitting
    the form does. *)
Theorem enter_submits_only_a_query_that_is_not_empty :
  forall (net : Page.Net) (id : string) (u : Page.Ui) (key : string),
    (key <> "Enter" -> Page.keyDown net id key u = (Ok tt, u)) /\
    (key = "Enter" -> Page.query (Page.page u) = EmptyString ->
     Page.keyDown net id key u
     = (Ok tt, Page.mkUi (Page.page u) (Page.log u ++ [Page.PreventDefault]))) /\
    (key = "Enter" -> Page.query (Page.page u) <> EmptyString ->
     Page.keyDown net id key u = Page.submit net id u).
Proof.
  intros net id u key. unfold Page.keyDown, Page.handleEnter, Page.submit.
  split; [ | split ].
  - intros Hk. apply String.eqb_neq in Hk. rewrite Hk. reflexivity.
  - intros -> Hq. rewrite Hq. reflexivity.
  - intros -> Hq.
    destruct (Page.query (Page.page u)) eqn:E; [ now elim Hq | ].
    reflexivity.
Qed.

Example enter_on_empty_query_keeps_the_error :
  let u := Page.mkUi
             (Page.mkPage EmptyString false (Some "No messages provided.")
                (Page.messageState Page.initial)) [] in
  Page.error (Page.page (snd (Page.keyDown Page.offline "doc-A" "Enter" u)))
    = Some "No messages provided." /\
  Page.error (Page.page (snd (Page.submit Page.offline "doc-A" u))) = None.
Proof. split; reflexivity. Qed.

(** With a chain library whose [stream] call returns at once, a served
    request has issued no answer call when the response is constructed;
    the response still carries the stream the answer call will deliver. *)
Example served_before_the_answer_call :
  collaborator_calls (trace (snd (run (Sample.happy_lazy Sample.body3))))
  = [OpAuth; OpReqJson; OpNewChatTogetherAI; OpPineconeIndex;
     OpFromExistingIndex; OpStream; OpRephrase; OpSimilaritySearch;
     OpHandleRetrieverEnd; OpJsonStringify; OpNewStreamingTextResponse] /\
  fst (run (Sample.happy_lazy Sample.body3)) = Returned SampleRun.response3.
Proof. split; reflexivity. Qed.
